(** * jwt-crud-api: authentication guard, access control and listing queries

    A shallow embedding of the request handlers of the API
    (src/middlewares/auth.js, src/routes/auth.routes.js,
    src/routes/product.routes.js, src/models/Product.js, src/app.js)
    together with the properties of its specification.

    JavaScript strings are [string], the characters being the bytes of
    their UTF-8 form; request bodies and the product collection keyed by
    [_id] are [gmap string _]; the sort document, whose key order matters,
    is a list of properties; thrown [AppError]s are the [inl] side of a
    sum. The libraries the handlers call (express-validator, mongoose,
    jsonwebtoken, bcrypt) are interfaces: records of functions that the
    handlers are parameterised by. *)

From Stdlib Require Import ZArith QArith Ascii String.
From stdpp Require Import base option strings list gmap.

Local Open Scope Z_scope.
Local Open Scope string_scope.

(** ** JavaScript string primitives *)

Module JS.

(** [s.startsWith(p)] *)
Fixpoint startsWith (s p : string) {struct p} : bool :=
  match p with
  | EmptyString => true
  | String c p' =>
      match s with
      | EmptyString => false
      | String d s' => if Ascii.eqb c d then startsWith s' p' else false
      end
  end.

(** [s.slice(n)] for [0 <= n] *)
Fixpoint slice (n : nat) (s : string) : string :=
  match n with
  | O => s
  | S n' => match s with
            | EmptyString => EmptyString
            | String _ s' => slice n' s'
            end
  end.

(** [s.split(sep)] for a one-character separator: never the empty list,
    [''.split(',')] is [['']]. *)
Fixpoint split (sep : ascii) (s : string) : list string :=
  match s with
  | EmptyString => [EmptyString]
  | String c s' =>
      if Ascii.eqb c sep then EmptyString :: split sep s'
      else match split sep s' with
           | tok :: rest => String c tok :: rest
           | [] => [String c EmptyString]
           end
  end.

(** [toks.join(sep)] *)
Fixpoint join (sep : ascii) (toks : list string) : string :=
  match toks with
  | [] => EmptyString
  | [t] => t
  | t :: rest => t ++ String sep (join sep rest)
  end.

(** Truthiness of a string: [''] is the only falsy string. *)
Definition truthy (s : string) : bool :=
  match s with EmptyString => false | String _ _ => true end.

(** [c] does not occur in [s] *)
Fixpoint free_of (c : ascii) (s : string) : bool :=
  match s with
  | EmptyString => true
  | String d s' => if Ascii.eqb d c then false else free_of c s'
  end.

End JS.

(** ** Errors (utils/error.js, app.js) *)

(** One entry of express-validator's [errors.array()]. *)
Record ValidationError := { param : string; msg : string }.

(** The message of an [AppError] is either a fixed text or the
    [JSON.stringify] of a validator error array. *)
Inductive Message :=
| Text (s : string)
| Violations (errs : list ValidationError).

(** Modelled from the spec: utils/error.js is not among the sources; an
    operation-level error carries a status classification and a
    human-readable message, built as [new AppError(message, statusCode)].
    An exception thrown by a library is an error without [statusCode]. *)
Record AppError := { message : Message; statusCode : option Z }.

(** A handler either throws (and [next(err)] receives the error) or
    answers. *)
Definition Result (A : Type) : Type := AppError + A.

(** [throw new AppError(m, status)] *)
Definition throw {A} (m : string) (status : Z) : Result A :=
  inl {| message := Text m; statusCode := Some status |}.

(** [throw new AppError(JSON.stringify(errors.array()), 422)] *)
Definition throwViolations {A} (errs : list ValidationError) : Result A :=
  inl {| message := Violations errs; statusCode := Some 422 |}.

(** A rejected library promise (mongoose): no [statusCode]. *)
Definition throwFatal {A} (m : string) : Result A :=
  inl {| message := Text m; statusCode := None |}.

(** The JSON body the error handler of app.js writes. *)
Inductive ErrorBody :=
| ErrorsField (errs : list ValidationError)   (* { errors: parsed } *)
| ErrorField (s : string).                    (* { error: message } *)

(** app.js, the error handler: [err.statusCode || 500] and
    [err.message || 'Erro interno'], the message rendered as [{errors}]
    when it parses as an array, as [{error}] otherwise. *)
Definition errorHandler (err : AppError) : Z * ErrorBody :=
  let status := match statusCode err with
                | Some c => if Z.eqb c 0 then 500 else c
                | None => 500
                end in
  match message err with
  | Violations errs => (status, ErrorsField errs)
  | Text s => (status, ErrorField (if JS.truthy s then s else "Erro interno"))
  end.

(** The status a caller observes for a handler result that threw. *)
Definition failsWith {A} (r : Result A) (status : Z) : Prop :=
  match r with
  | inl err => fst (errorHandler err) = status
  | inr _ => False
  end.

(** ** Request data *)

(** A value read from [req.body]: a JSON scalar, or [undefined] for a key
    the body does not have. *)
Inductive JSValue :=
| Undefined
| Null
| Bool (b : bool)
| Number (q : Q)
| Str (s : string).

(** [req.body] *)
Abbreviation Body := (gmap string JSValue).

(** [req.body.k] *)
Definition field (body : Body) (k : string) : JSValue :=
  default Undefined (body !! k).

(** [v || d] on values: [undefined], [null], [false], [0] and [''] are
    falsy. *)
Definition orElse (v d : JSValue) : JSValue :=
  match v with
  | Undefined | Null | Bool false | Str EmptyString => d
  | Number q => if Qeq_bool q 0 then d else v
  | _ => v
  end.

(** [process.env]: the signing secret and the token lifetime, the latter
    already converted to seconds. *)
Record Env := { JWT_SECRET : string; JWT_EXPIRES_IN : Z }.

(** ** jsonwebtoken (HS256, compact serialization)

    The package is a dependency of the repository. Its [sign] and [verify]
    are written here over the primitives they are built from, which are an
    interface: the base64url/JSON codec of a payload and the keyed MAC. *)

Module Jwt.

(** The registered claims the application uses. *)
Record Payload := { sub : string; email : string; iat : Z; exp : Z }.

Record Primitives := {
  headerSegment : string;                  (* base64url of the JOSE header *)
  encodePayload : Payload -> string;       (* base64url (JSON.stringify p) *)
  decodePayload : string -> option Payload;(* None when parsing throws *)
  hmac : string -> string -> string        (* base64url (HMAC (secret, input)) *)
}.

Inductive VerifyError :=
| JsonWebTokenError (why : string)
| TokenExpiredError.

Section Library.
Context (P : Primitives).

(** [jwt.sign({ email }, secret, { subject, expiresIn })] at time [now] *)
Definition sign (email secret subject : string) (expiresIn now : Z) : string :=
  let payload :=
    {| sub := subject; email := email; iat := now; exp := now + expiresIn |} in
  let input := headerSegment P ++ "." ++ encodePayload P payload in
  input ++ "." ++ hmac P secret input.

(** [jwt.verify(token, secret)] at time [now] *)
Definition verify (token secret : string) (now : Z) : VerifyError + Payload :=
  match JS.split "." token with
  | [h; p; s] =>
      match decodePayload P p with
      | None => inl (JsonWebTokenError "invalid token")
      | Some payload =>
          if negb (String.eqb h (headerSegment P)) then
            inl (JsonWebTokenError "invalid algorithm")
          else if negb (String.eqb s (hmac P secret (h ++ "." ++ p))) then
            inl (JsonWebTokenError "invalid signature")
          else if Z.leb (exp payload) now then inl TokenExpiredError
          else inr payload
      end
  | _ => inl (JsonWebTokenError "jwt malformed")
  end.
End Library.

(** What [sign] and [verify] rely on: segments are base64url text (no
    dot), the codec round-trips, and the MAC has no collision on the
    inputs of one key. *)
Record Sound (P : Primitives) : Prop := {
  header_dot_free : JS.free_of "." (headerSegment P) = true;
  payload_dot_free : forall p, JS.free_of "." (encodePayload P p) = true;
  hmac_dot_free : forall k m, JS.free_of "." (hmac P k m) = true;
  decode_encode : forall p, decodePayload P (encodePayload P p) = Some p;
  hmac_injective : forall k m1 m2, hmac P k m1 = hmac P k m2 -> m1 = m2
}.

End Jwt.

(** ** middlewares/auth.js *)

(** [req.user] *)
Record Identity := { id : string; email : string }.

(** Calls the guard makes to the token library. *)
Inductive Event := JwtVerify (token secret : string).

Section Auth.
Context (P : Jwt.Primitives) (env : Env) (now : Z).

(** [auth(req, _res, next)]: the error or the identity passed on, and
    the library calls made. [authorization] is [req.headers.authorization]. *)
Definition auth (authorization : option string) : Result Identity * list Event :=
  let header := default "" authorization in
  let token := if JS.startsWith header "Bearer " then Some (JS.slice 7 header) else None in
  match token with
  | Some t =>
      if JS.truthy t then
        match Jwt.verify P t (JWT_SECRET env) now with
        | inr payload =>
            (inr {| id := Jwt.sub payload; email := Jwt.email payload |},
             [JwtVerify t (JWT_SECRET env)])
        | inl _ =>
            (throw "Token inválido ou expirado" 401, [JwtVerify t (JWT_SECRET env)])
        end
      else (throw "Token não informado" 401, [])
  | None => (throw "Token não informado" 401, [])
  end.

(** The token the routes issue for a user: [jwt.sign({ email: user.email },
    process.env.JWT_SECRET, { subject: String(user._id), expiresIn })]. *)
Definition issueToken (userId userEmail : string) : string :=
  Jwt.sign P userEmail (JWT_SECRET env) userId (JWT_EXPIRES_IN env) now.
End Auth.

(** The header carries the scheme prefix, character for character. *)
Definition hasBearerPrefix (authorization : option string) : Prop :=
  exists rest, authorization = Some ("Bearer " ++ rest).

(** ** express-validator *)

Module Validator.

(** The validators the routes use on body fields and path parameters;
    the package is a dependency, its checks are an interface. *)
Record Checks := {
  isMongoId : string -> bool;
  notEmpty : JSValue -> bool;
  isFloatMin0 : JSValue -> bool;     (* isFloat({ min: 0 }) *)
  isString : JSValue -> bool;
  isIntMin0 : JSValue -> bool;       (* isInt({ min: 0 }) *)
  isBoolean : JSValue -> bool;
  isEmail : JSValue -> bool;
  isLengthMin6 : JSValue -> bool     (* isLength({ min: 6 }) *)
}.

(** One chain on one field: an error entry when the check fails. *)
Definition check (p : string) (ok : bool) (m : string) : list ValidationError :=
  if ok then [] else [{| param := p; msg := m |}].

(** [.optional()]: the chain is skipped when the field is [undefined]. *)
Definition optional (p : string) (v : JSValue) (ok : JSValue -> bool)
  : list ValidationError :=
  match v with
  | Undefined => []
  | _ => check p (ok v) "Invalid value"
  end.

(** *** Query parameters: [.toInt()] and [.isInt({ min, max })]

    A query parameter arrives as a string. [toInt] is [parseInt(s, 10)];
    its result is [NaN] or an integer-valued double, written as the
    integer it is. *)
Inductive IntOrNaN := NaN | Int (n : Z).

(** White space and line terminators of one byte: TAB, LF, VT, FF, CR
    and SP. *)
Definition isWhiteSpace (c : ascii) : bool :=
  let n := nat_of_ascii c in
  (Nat.eqb n 32 || Nat.eqb n 9 || Nat.eqb n 10 || Nat.eqb n 11
   || Nat.eqb n 12 || Nat.eqb n 13)%bool.

(** ... of two bytes: U+00A0. *)
Definition isWhiteSpace2 (c1 c2 : ascii) : bool :=
  (Nat.eqb (nat_of_ascii c1) 194 && Nat.eqb (nat_of_ascii c2) 160)%bool.

(** ... of three bytes: U+1680, U+2000 to U+200A, U+2028, U+2029,
    U+202F, U+205F, U+3000 and U+FEFF. *)
Definition isWhiteSpace3 (c1 c2 c3 : ascii) : bool :=
  let '(a, b, c) := (nat_of_ascii c1, nat_of_ascii c2, nat_of_ascii c3) in
  ((Nat.eqb a 225 && Nat.eqb b 154 && Nat.eqb c 128)
   || (Nat.eqb a 226 && Nat.eqb b 128
       && ((Nat.leb 128 c && Nat.leb c 138) || Nat.eqb c 168 || Nat.eqb c 169
           || Nat.eqb c 175))
   || (Nat.eqb a 226 && Nat.eqb b 129 && Nat.eqb c 159)
   || (Nat.eqb a 227 && Nat.eqb b 128 && Nat.eqb c 128)
   || (Nat.eqb a 239 && Nat.eqb b 187 && Nat.eqb c 191))%bool.

(** The first byte of a character of two, or of three, bytes that may be
    white space. *)
Definition leadsWhiteSpace (c : ascii) : bool :=
  let n := nat_of_ascii c in
  (Nat.eqb n 194 || Nat.eqb n 225 || Nat.eqb n 226 || Nat.eqb n 227
   || Nat.eqb n 239)%bool.

(** [s.trimStart()], which is how [parseInt] begins. *)
Fixpoint trimStart (s : string) : string :=
  match s with
  | String c1 s1 =>
      if isWhiteSpace c1 then trimStart s1
      else if leadsWhiteSpace c1 then
        match s1 with
        | String c2 s2 =>
            if isWhiteSpace2 c1 c2 then trimStart s2
            else match s2 with
                 | String c3 s3 =>
                     if isWhiteSpace3 c1 c2 c3 then trimStart s3 else s
                 | EmptyString => s
                 end
        | EmptyString => s
        end
      else s
  | EmptyString => EmptyString
  end.

(** White space at the front of a string that is read backwards: the
    bytes of a character come last byte first. *)
Fixpoint trimStartReversed (s : string) : string :=
  match s with
  | String c3 s1 =>
      if isWhiteSpace c3 then trimStartReversed s1
      else match s1 with
           | String c2 s2 =>
               if isWhiteSpace2 c2 c3 then trimStartReversed s2
               else match s2 with
                    | String c1 s3 =>
                        if isWhiteSpace3 c1 c2 c3 then trimStartReversed s3 else s
                    | EmptyString => s
                    end
           | EmptyString => s
           end
  | EmptyString => EmptyString
  end.

(** [s.trim()] *)
Definition trim (s : string) : string :=
  String.rev (trimStartReversed (String.rev (trimStart s))).

Definition digit (c : ascii) : option Z :=
  let n := nat_of_ascii c in
  if (Nat.leb 48 n && Nat.leb n 57)%bool then Some (Z.of_nat n - 48) else None.

(** The value of the longest prefix of decimal digits, [acc] being the
    value of the digits read so far; [None] when there is no digit. *)
Fixpoint digits (acc : option Z) (s : string) : option Z :=
  match s with
  | String c s' =>
      match digit c with
      | Some d => digits (Some (10 * default 0 acc + d)) s'
      | None => acc
      end
  | EmptyString => acc
  end.

(** The double nearest to an integer, ties to the even significand: the
    integer itself below 2^53, and 53 significant bits of it above. (From
    2^1024 on the double is [Infinity]; the chains below reject it as they
    reject every number from 10^21 on.) *)
Definition toDouble (n : Z) : Z :=
  let m := Z.abs n in
  if Z.ltb m (2 ^ 53) then n
  else
    let e := Z.log2 m - 52 in
    let q := Z.shiftr m e in
    let r := m - Z.shiftl q e in
    let half := Z.shiftl 1 (e - 1) in
    let q' := if (Z.ltb half r || (Z.eqb half r && Z.odd q))%bool then q + 1 else q in
    Z.sgn n * Z.shiftl q' e.

(** [parseInt(s, 10)]: leading white space, an optional sign, then the
    longest run of digits; anything after it is ignored. *)
Definition parseInt (s : string) : IntOrNaN :=
  let s1 := trimStart s in
  let '(negative, s2) :=
    match s1 with
    | String "-" r => (true, r)
    | String "+" r => (false, r)
    | _ => (false, s1)
    end in
  match digits None s2 with
  | Some n => Int (toDouble (if negative then - n else n))
  | None => NaN
  end.

Definition toInt (s : string) : IntOrNaN := parseInt s.

(** [isInt({ min, max })] on a number: the number is turned into a
    string again, [String(n)], and the string is checked. It is an integer
    literal when the number is an integer below 10^21 in absolute value
    ([NaN] and the exponent notation of larger numbers are not), and the
    bounds are compared with the number it denotes. *)
Definition isInt (min : Z) (max : option Z) (v : IntOrNaN) : bool :=
  match v with
  | NaN => false
  | Int n =>
      (Z.ltb (Z.abs n) (10 ^ 21) && Z.leb min n
       && match max with Some m => Z.leb n m | None => true end)%bool
  end.

(** The string denotes an integer: an optional sign and digits only. *)
Fixpoint allDigits (s : string) : bool :=
  match s with
  | EmptyString => true
  | String c s' => match digit c with Some _ => allDigits s' | None => false end
  end.

Definition isIntegerLiteral (s : string) : bool :=
  match s with
  | String "-" r | String "+" r => (JS.truthy r && allDigits r)%bool
  | _ => (JS.truthy s && allDigits s)%bool
  end.

(** The string is the decimal form of a positive integer below 10^13: one
    to thirteen digits, the first not [0]. [Number(s)], [parseInt(s, 10)]
    and the driver's cast of such a string are the same number, and the
    product of two such numbers, one of them at most 100, is exact. *)
Definition isPlainInteger (s : string) : bool :=
  (JS.truthy s && allDigits s && negb (JS.startsWith s "0")
   && Nat.leb (String.length s) 13)%bool.

End Validator.

(** ** Plain objects with number values *)

Module JSObject.

(** The own properties of an object created as [{}], in the order of
    their creation. *)
Definition t : Type := list (string * Z).

(** [o[k]] for an own property *)
Fixpoint get (o : t) (k : string) : option Z :=
  match o with
  | [] => None
  | (k', v) :: o' => if String.eqb k' k then Some v else get o' k
  end.

(** Writing an own property: an existing key keeps its place. *)
Fixpoint put (o : t) (k : string) (v : Z) : t :=
  match o with
  | [] => [(k, v)]
  | (k', v') :: o' => if String.eqb k' k then (k, v) :: o' else (k', v') :: put o' k v
  end.

(** [o[k] = v] for a number [v]. The key [__proto__] is the accessor of
    [Object.prototype]: its setter ignores a number, and no property is
    created. *)
Definition set (o : t) (k : string) (v : Z) : t :=
  if String.eqb k "__proto__" then o else put o k v.

(** An array index: the canonical decimal form of an integer below
    2^32 - 1. *)
Definition arrayIndex (k : string) : option Z :=
  if (JS.truthy k && Validator.allDigits k
      && (String.eqb k "0" || negb (JS.startsWith k "0")))%bool then
    match Validator.digits None k with
    | Some n => if Z.leb n 4294967294 then Some n else None
    | None => None
    end
  else None.

Fixpoint insertIndex (i : Z) (kv : string * Z) (l : list (Z * (string * Z)))
  : list (Z * (string * Z)) :=
  match l with
  | [] => [(i, kv)]
  | (j, kv') :: l' =>
      if Z.leb i j then (i, kv) :: l else (j, kv') :: insertIndex i kv l'
  end.

Definition indexed (o : t) : list (Z * (string * Z)) :=
  foldr (fun kv acc =>
           match arrayIndex (fst kv) with
           | Some i => insertIndex i kv acc
           | None => acc
           end) [] o.

(** [Object.entries(o)]: the array indices in ascending order first, then
    the other keys in the order of their creation. *)
Definition entries (o : t) : list (string * Z) :=
  ((snd <$> indexed o)
   ++ List.filter (fun kv => match arrayIndex (fst kv) with
                             | Some _ => false
                             | None => true
                             end) o)%list.

End JSObject.

(** ** models/Product.js *)

Module Product.

(** A document of the [Product] collection, without its [_id] (the key
    of the collection) and its timestamps. Each path holds a value of its
    schema type; [owner] holds [String(owner)]. *)
Record Doc := {
  name : string;
  description : string;
  price : Q;
  stock : Q;
  active : bool;
  owner : string
}.

Definition setName (v : string) (d : Doc) : Doc :=
  {| name := v; description := description d; price := price d;
     stock := stock d; active := active d; owner := owner d |}.
Definition setDescription (v : string) (d : Doc) : Doc :=
  {| name := name d; description := v; price := price d;
     stock := stock d; active := active d; owner := owner d |}.
Definition setPrice (v : Q) (d : Doc) : Doc :=
  {| name := name d; description := description d; price := v;
     stock := stock d; active := active d; owner := owner d |}.
Definition setStock (v : Q) (d : Doc) : Doc :=
  {| name := name d; description := description d; price := price d;
     stock := v; active := active d; owner := owner d |}.
Definition setActive (v : bool) (d : Doc) : Doc :=
  {| name := name d; description := description d; price := price d;
     stock := stock d; active := v; owner := owner d |}.
Definition setOwner (v : string) (d : Doc) : Doc :=
  {| name := name d; description := description d; price := price d;
     stock := stock d; active := active d; owner := v |}.

(** The validators of the schema: [name] required, [price] and [stock]
    with [min: 0]. *)
Definition validates (d : Doc) : bool :=
  (JS.truthy (name d) && Qle_bool 0 (price d) && Qle_bool 0 (stock d))%bool.

(** The paths of the schema that a request body can name. *)
Definition paths : list string :=
  ["name"; "description"; "price"; "stock"; "active"; "owner"].

End Product.

(** The collection: [_id] to document. *)
Abbreviation Products := (gmap string Product.Doc).

(** ** mongoose *)

Module Mongoose.

(** What the routes need of the driver: the casts of the schema types
    ([None] is a CastError), the [trim] setter, the identifier of a new
    document, the text index, and the sort: which sort specifications
    (fields with their directions, in order of priority) the database
    refuses, and the ordering of a result by one it takes. The
    specification the listing uses by default is taken. *)
Record Driver := {
  castString : JSValue -> option string;
  castNumber : JSValue -> option Q;
  castBoolean : JSValue -> option bool;
  castObjectId : JSValue -> option string;
  trim : string -> string;
  newObjectId : Products -> string;
  textMatch : string -> Product.Doc -> bool;
  sortRejected : list (string * Z) -> bool;
  sortDocs : list (string * Z) -> list (string * Product.Doc) -> list (string * Product.Doc);
  sortByCreation : sortRejected [("createdAt", -1)] = false
}.

(** A filter document: [{ active: b, $text: { $search: q } }], each part
    optional. *)
Record Filter := { activeIs : option bool; textSearch : option string }.

Section Model.
Context (M : Driver).

(** [doc[path] = v] on a hydrated document, for the paths of
    [Product.paths]: the value is cast to the type of the path. Another
    key leaves these paths as they are; the keys that act on the document
    otherwise ([_id], the name of one of its methods) are not modelled. *)
Definition set (d : Product.Doc) (path : string) (v : JSValue) : option Product.Doc :=
  if String.eqb path "name" then
    s ← castString M v; Some (Product.setName (trim M s) d)
  else if String.eqb path "description" then
    s ← castString M v; Some (Product.setDescription s d)
  else if String.eqb path "price" then
    q ← castNumber M v; Some (Product.setPrice q d)
  else if String.eqb path "stock" then
    q ← castNumber M v; Some (Product.setStock q d)
  else if String.eqb path "active" then
    b ← castBoolean M v; Some (Product.setActive b d)
  else if String.eqb path "owner" then
    o ← castObjectId M v; Some (Product.setOwner o d)
  else Some d.

(** [Object.assign(doc, body)]: every own key of the body is set. *)
Definition assign (d : Product.Doc) (body : Body) : option Product.Doc :=
  map_fold (fun path v acc => d' ← acc; set d' path v) (Some d) body.

(** [doc.save()] of the document stored under [_id]: rejected when a
    cast failed on the way or a schema validator fails. *)
Definition save (_id : string) (d : option Product.Doc) (store : Products)
  : Result Product.Doc * Products :=
  match d with
  | None => (throwFatal "CastError", store)
  | Some d' =>
      if Product.validates d' then (inr d', <[_id := d']> store)
      else (throwFatal "ValidationError", store)
  end.

(** [Product.create(data)] for the five keys the route passes: the
    required paths must be present, every value is cast, the schema
    defaults apply ([active: true]), the validators run, and the
    document is inserted under a new [_id]. *)
Definition create (vname vdescription vprice vstock vowner : JSValue)
    (store : Products) : Result (string * Product.Doc) * Products :=
  match vname, vprice, vowner with
  | Undefined, _, _ | _, Undefined, _ | _, _, Undefined =>
      (throwFatal "ValidationError", store)
  | _, _, _ =>
      match castString M vname, castString M vdescription, castNumber M vprice,
            castNumber M vstock, castObjectId M vowner with
      | Some n, Some d, Some p, Some s, Some o =>
          let doc := {| Product.name := trim M n; Product.description := d;
                        Product.price := p; Product.stock := s;
                        Product.active := true; Product.owner := o |} in
          if Product.validates doc then
            let _id := newObjectId M store in
            (inr (_id, doc), <[_id := doc]> store)
          else (throwFatal "ValidationError", store)
      | _, _, _, _, _ => (throwFatal "CastError", store)
      end
  end.

(** [Product.findById(id)] for an [id] that is the string of an
    ObjectId, as the keys of the collection are. *)
Definition findById (_id : string) (store : Products) : option Product.Doc :=
  store !! _id.

Definition matches (f : Filter) (d : Product.Doc) : bool :=
  (match activeIs f with Some b => Bool.eqb (Product.active d) b | None => true end
   && match textSearch f with Some q => textMatch M q d | None => true end)%bool.

Definition selected (f : Filter) (store : Products) : list (string * Product.Doc) :=
  List.filter (fun kv => matches f (snd kv)) (map_to_list store).

(** [Product.find(filter).sort(sort).skip(skip).limit(limit)] for
    integers [0 <= skip] and [1 <= limit]: the query is rejected when the
    database refuses the sort specification, which is read off the sort
    document in the order of its keys. *)
Definition find (f : Filter) (sort : JSObject.t) (skip limit : Z)
    (store : Products) : Result (list (string * Product.Doc)) :=
  let spec := JSObject.entries sort in
  if sortRejected M spec then throwFatal "MongoServerError"
  else inr (take (Z.to_nat limit) (drop (Z.to_nat skip) (sortDocs M spec (selected f store)))).

(** [Product.countDocuments(filter)] *)
Definition countDocuments (f : Filter) (store : Products) : Z :=
  Z.of_nat (length (selected f store)).
End Model.

End Mongoose.

(** ** routes/product.routes.js *)

(** [req.query] of the listing. *)
Record Query := {
  q_page : option string;
  q_limit : option string;
  q_search : option string;
  q_sort : option string
}.

(** The body of the listing response. *)
Record Listing := {
  page : Z;
  limit : Z;
  total : Z;
  items : list (string * Product.Doc)
}.

Section ProductRoutes.
Context (V : Validator.Checks) (M : Mongoose.Driver).

(** [query(p).optional().toInt().isInt({ min, max })]: the parameter is
    converted first and the converted value is what is checked. *)
Definition intParam (p : string) (raw : option string) (min : Z) (max : option Z)
  : list ValidationError :=
  match raw with
  | None => []
  | Some s => Validator.check p (Validator.isInt min max (Validator.toInt s)) "Invalid value"
  end.

(** [req.query.p || d] read as a number. For a parameter that is absent
    or a plain integer ([Validator.isPlainInteger]) this is the number the
    string denotes, which is what the arithmetic of the handler and the
    driver's cast of [limit] make of it, whether or not the sanitizer's
    result is written back to the request. For another string that passed
    the chain the definition gives the sanitizer's value; what is proved of
    the answered page and limit and of the items is stated for plain
    integers. *)
Definition intOr (raw : option string) (d : Z) : Z :=
  match raw with
  | None => d
  | Some s =>
      match Validator.toInt s with
      | Validator.Int n => if Z.eqb n 0 then d else n
      | Validator.NaN => d
      end
  end.

(** The parameter is absent or a plain integer. *)
Definition plainParam (raw : option string) : bool :=
  match raw with
  | None => true
  | Some s => Validator.isPlainInteger s
  end.

(** The sort document of the listing, one token at a time. *)
Definition sortEntry (sort : JSObject.t) (field : string) : JSObject.t :=
  if JS.startsWith field "-" then JSObject.set sort (JS.slice 1 field) (-1)
  else JSObject.set sort field 1.

Definition buildSort (raw : option string) : JSObject.t :=
  match raw with
  | Some s =>
      if JS.truthy s then foldl sortEntry [] (JS.split "," s)
      else [("createdAt", -1)]
  | None => [("createdAt", -1)]
  end.

(** The filter document of the listing. *)
Definition buildFilter (search : option string) : Mongoose.Filter :=
  {| Mongoose.activeIs := Some true;
     Mongoose.textSearch :=
       match search with
       | Some s => if JS.truthy s then Some s else None
       | None => None
       end |}.

(** [GET /products]. The [search] and [sort] parameters are strings, so
    their [isString] chains report nothing. *)
Definition listProducts (q : Query) (store : Products) : Result Listing :=
  let errors := (intParam "page" (q_page q) 1 None
                 ++ intParam "limit" (q_limit q) 1 (Some 100))%list in
  match errors with
  | _ :: _ => throwViolations errors
  | [] =>
      let page := intOr (q_page q) 1 in
      let limit := intOr (q_limit q) 10 in
      let skip := (page - 1) * limit in
      let filter := buildFilter (q_search q) in
      let sort := buildSort (q_sort q) in
      match Mongoose.find M filter sort skip limit store with
      | inl err => inl err
      | inr items =>
          inr {| page := page; limit := limit;
                 total := Mongoose.countDocuments M filter store;
                 items := items |}
      end
  end.

(** [GET /products/:id], the id of the path being the string of an
    ObjectId (the cast of [findById] gives it back); [getProductById] below
    is the route on any string. *)
Definition getProduct (_id : string) (store : Products) : Result Product.Doc :=
  let errors := Validator.check "id" (Validator.isMongoId V _id) "Invalid value" in
  match errors with
  | _ :: _ => throwViolations errors
  | [] =>
      match Mongoose.findById _id store with
      | None => throw "Produto não encontrado" 404
      | Some item =>
          if negb (Product.active item) then throw "Produto não encontrado" 404
          else inr item
      end
  end.

(** [POST /products], after [auth] *)
Definition createProduct (user : Identity) (body : Body) (store : Products)
  : Result (string * Product.Doc) * Products :=
  let errors :=
    (Validator.check "name" (Validator.notEmpty V (field body "name")) "Invalid value"
     ++ Validator.check "price" (Validator.isFloatMin0 V (field body "price")) "Invalid value"
     ++ Validator.optional "description" (field body "description") (Validator.isString V)
     ++ Validator.optional "stock" (field body "stock") (Validator.isIntMin0 V))%list in
  match errors with
  | _ :: _ => (throwViolations errors, store)
  | [] =>
      Mongoose.create M
        (field body "name")
        (orElse (field body "description") (Str ""))
        (field body "price")
        (orElse (field body "stock") (Number 0))
        (Str (id user))
        store
  end.

(** The validation chains of [PATCH /products/:id]. *)
Definition patchErrors (_id : string) (body : Body) : list ValidationError :=
  (Validator.check "id" (Validator.isMongoId V _id) "Invalid value"
   ++ Validator.optional "name" (field body "name") (Validator.notEmpty V)
   ++ Validator.optional "price" (field body "price") (Validator.isFloatMin0 V)
   ++ Validator.optional "description" (field body "description") (Validator.isString V)
   ++ Validator.optional "stock" (field body "stock") (Validator.isIntMin0 V)
   ++ Validator.optional "active" (field body "active") (Validator.isBoolean V))%list.

(** [PATCH /products/:id], after [auth], the id of the path being the
    string of an ObjectId *)
Definition patchProduct (user : Identity) (_id : string) (body : Body)
    (store : Products) : Result Product.Doc * Products :=
  let errors := patchErrors _id body in
  match errors with
  | _ :: _ => (throwViolations errors, store)
  | [] =>
      match Mongoose.findById _id store with
      | None => (throw "Produto não encontrado" 404, store)
      | Some product =>
          if negb (Product.active product) then
            (throw "Produto não encontrado" 404, store)
          else if negb (String.eqb (Product.owner product) (id user)) then
            (throw "Sem permissão" 403, store)
          else Mongoose.save _id (Mongoose.assign M product body) store
      end
  end.

(** [DELETE /products/:id], after [auth], the id of the path being the
    string of an ObjectId; the answer is 204 without a body. *)
Definition deleteProduct (user : Identity) (_id : string) (store : Products)
  : Result unit * Products :=
  let errors := Validator.check "id" (Validator.isMongoId V _id) "Invalid value" in
  match errors with
  | _ :: _ => (throwViolations errors, store)
  | [] =>
      match Mongoose.findById _id store with
      | None => (throw "Produto não encontrado" 404, store)
      | Some product =>
          if negb (Product.active product) then
            (throw "Produto não encontrado" 404, store)
          else if negb (String.eqb (Product.owner product) (id user)) then
            (throw "Sem permissão" 403, store)
          else
            match Mongoose.save _id (Some (Product.setActive false product)) store with
            | (inl err, store') => (inl err, store')
            | (inr _, store') => (inr tt, store')
            end
      end
  end.
End ProductRoutes.

(** *** The routes of one product, from the string of the path

    [Product.findById(req.params.id)] casts the string to an ObjectId
    before it queries: the document it finds is the one stored under the
    cast id, [save] writes that document back under its [_id], and a string
    that the cast rejects makes the query throw. The validator of the
    route sees the string as it came. *)

Section RequestId.
Context (V : Validator.Checks) (M : Mongoose.Driver).

(** [Product.findById(req.params.id)]: the document with its [_id]. *)
Definition findByRequestId (rid : string) (store : Products)
  : Result (option (string * Product.Doc)) :=
  match Mongoose.castObjectId M (Str rid) with
  | None => throwFatal "CastError"
  | Some _id => inr ((fun d => (_id, d)) <$> Mongoose.findById _id store)
  end.

(** [GET /products/:id] *)
Definition getProductById (rid : string) (store : Products) : Result Product.Doc :=
  let errors := Validator.check "id" (Validator.isMongoId V rid) "Invalid value" in
  match errors with
  | _ :: _ => throwViolations errors
  | [] =>
      match findByRequestId rid store with
      | inl err => inl err
      | inr None => throw "Produto não encontrado" 404
      | inr (Some (_, item)) =>
          if negb (Product.active item) then throw "Produto não encontrado" 404
          else inr item
      end
  end.

(** [PATCH /products/:id], after [auth] *)
Definition patchProductById (user : Identity) (rid : string) (body : Body)
    (store : Products) : Result Product.Doc * Products :=
  let errors := patchErrors V rid body in
  match errors with
  | _ :: _ => (throwViolations errors, store)
  | [] =>
      match findByRequestId rid store with
      | inl err => (inl err, store)
      | inr None => (throw "Produto não encontrado" 404, store)
      | inr (Some (_id, product)) =>
          if negb (Product.active product) then
            (throw "Produto não encontrado" 404, store)
          else if negb (String.eqb (Product.owner product) (id user)) then
            (throw "Sem permissão" 403, store)
          else Mongoose.save _id (Mongoose.assign M product body) store
      end
  end.

(** [DELETE /products/:id], after [auth] *)
Definition deleteProductById (user : Identity) (rid : string) (store : Products)
  : Result unit * Products :=
  let errors := Validator.check "id" (Validator.isMongoId V rid) "Invalid value" in
  match errors with
  | _ :: _ => (throwViolations errors, store)
  | [] =>
      match findByRequestId rid store with
      | inl err => (inl err, store)
      | inr None => (throw "Produto não encontrado" 404, store)
      | inr (Some (_id, product)) =>
          if negb (Product.active product) then
            (throw "Produto não encontrado" 404, store)
          else if negb (String.eqb (Product.owner product) (id user)) then
            (throw "Sem permissão" 403, store)
          else
            match Mongoose.save _id (Some (Product.setActive false product)) store with
            | (inl err, store') => (inl err, store')
            | (inr _, store') => (inr tt, store')
            end
      end
  end.
End RequestId.

(** ** models/User.js *)

Module User.

(** Modelled from the spec: models/User.js is not among the sources; a
    user record holds an identity, a name, a unique email and a password
    hash, and the routes use [findOne({ email })], [create] and
    [comparePassword]. *)
Record Doc := { _id : string; name : string; email : string; password : string }.

(** The password side of the model, an interface: [comparePassword]
    ([None] when the hash library rejects its arguments), the hash
    stored by [create], and the [_id] of a new user. *)
Record Model := {
  comparePassword : Doc -> JSValue -> option bool;
  hashPassword : JSValue -> option string;
  newUserId : list Doc -> string
}.

Section Queries.
Context (M : Mongoose.Driver) (U : Model).

(** [User.findOne({ email })] *)
Definition findOne (vemail : JSValue) (users : list Doc) : Result (option Doc) :=
  match Mongoose.castString M vemail with
  | None => throwFatal "CastError"
  | Some e => inr (List.find (fun u => String.eqb (email u) e) users)
  end.

(** [User.create({ name, email, password })] *)
Definition create (vname vemail vpassword : JSValue) (users : list Doc)
  : Result Doc * list Doc :=
  match Mongoose.castString M vname, Mongoose.castString M vemail,
        hashPassword U vpassword with
  | Some n, Some e, Some h =>
      let user := {| _id := newUserId U users; name := n; email := e;
                     password := h |} in
      (inr user, (users ++ [user])%list)
  | _, _, _ => (throwFatal "ValidationError", users)
  end.
End Queries.

End User.

(** ** routes/auth.routes.js *)

(** [{ user: { id, name, email }, token }] *)
Record Session := {
  user_id : string;
  user_name : string;
  user_email : string;
  token : string
}.

Section AuthRoutes.
Context (V : Validator.Checks) (M : Mongoose.Driver) (U : User.Model)
        (P : Jwt.Primitives) (env : Env) (now : Z).

Definition session (user : User.Doc) : Session :=
  {| user_id := User._id user; user_name := User.name user;
     user_email := User.email user;
     token := issueToken P env now (User._id user) (User.email user) |}.

(** [POST /auth/register] *)
Definition register (body : Body) (users : list User.Doc)
  : Result Session * list User.Doc :=
  let errors :=
    (Validator.check "name" (Validator.notEmpty V (field body "name")) "name é obrigatório"
     ++ Validator.check "email" (Validator.isEmail V (field body "email")) "email inválido"
     ++ Validator.check "password" (Validator.isLengthMin6 V (field body "password"))
          "password mínimo 6 chars")%list in
  match errors with
  | _ :: _ => (throwViolations errors, users)
  | [] =>
      match User.findOne M (field body "email") users with
      | inl err => (inl err, users)
      | inr (Some _) => (throw "Email já cadastrado" 409, users)
      | inr None =>
          match User.create M U (field body "name") (field body "email")
                  (field body "password") users with
          | (inl err, users') => (inl err, users')
          | (inr user, users') => (inr (session user), users')
          end
      end
  end.

(** [POST /auth/login] *)
Definition login (body : Body) (users : list User.Doc) : Result Session :=
  let errors :=
    (Validator.check "email" (Validator.isEmail V (field body "email")) "Invalid value"
     ++ Validator.check "password" (Validator.notEmpty V (field body "password"))
          "Invalid value")%list in
  match errors with
  | _ :: _ => throwViolations errors
  | [] =>
      match User.findOne M (field body "email") users with
      | inl err => inl err
      | inr None => throw "Credenciais inválidas" 401
      | inr (Some user) =>
          match User.comparePassword U user (field body "password") with
          | None => throwFatal "Error"
          | Some false => throw "Credenciais inválidas" 401
          | Some true => inr (session user)
          end
      end
  end.

(** A route mounted behind [auth]: the handler runs only with the
    identity the guard resolved. *)
Definition protected {A S : Type} (authorization : option string)
    (handler : Identity -> S -> Result A * S) (state : S) : Result A * S :=
  match fst (auth P env now authorization) with
  | inl err => (inl err, state)
  | inr user => handler user state
  end.
End AuthRoutes.

(** ** A closed instance of the interfaces

    Sample implementations of the library interfaces, agreeing with the
    packages on JSON values of the expected type; the examples below run
    the handlers on them. *)

Module Sample.

Definition isHexDigit (c : ascii) : bool :=
  let n := nat_of_ascii c in
  ((Nat.leb 48 n && Nat.leb n 57) || (Nat.leb 97 n && Nat.leb n 102)
   || (Nat.leb 65 n && Nat.leb n 70))%bool.

Fixpoint allHex (s : string) : bool :=
  match s with
  | EmptyString => true
  | String c s' => (isHexDigit c && allHex s')%bool
  end.

(** validator.js, [isHexadecimal]: hexadecimal digits, at least one,
    after an optional [0x] or [0h] in either case. *)
Definition isHexadecimal (s : string) : bool :=
  let digits :=
    match s with
    | String "0" (String c r) =>
        if (Ascii.eqb c "x" || Ascii.eqb c "X" || Ascii.eqb c "h" || Ascii.eqb c "H")%bool
        then r else s
    | _ => s
    end in
  (JS.truthy digits && allHex digits)%bool.

(** validator.js, [isMongoId]: hexadecimal and 24 characters long. *)
Definition isMongoId (s : string) : bool :=
  (isHexadecimal s && Nat.eqb (String.length s) 24)%bool.

(** The strings the driver casts to an ObjectId: 24 hexadecimal digits. *)
Definition isObjectIdString (s : string) : bool :=
  (allHex s && Nat.eqb (String.length s) 24)%bool.

Definition lowerHex (c : ascii) : ascii :=
  let n := nat_of_ascii c in
  if (Nat.leb 65 n && Nat.leb n 70)%bool then ascii_of_nat (n + 32) else c.

Fixpoint lower (s : string) : string :=
  match s with
  | EmptyString => EmptyString
  | String c s' => String (lowerHex c) (lower s')
  end.

Fixpoint contains (c : ascii) (s : string) : bool :=
  match s with
  | EmptyString => false
  | String d s' => (Ascii.eqb c d || contains c s')%bool
  end.

Definition isInteger (q : Q) : bool := Pos.eqb (Qden (Qred q)) 1.

Definition checks : Validator.Checks :=
  {| Validator.isMongoId := isMongoId;
     Validator.notEmpty := fun v =>
       match v with Str s => JS.truthy s | Undefined | Null => false | _ => true end;
     Validator.isFloatMin0 := fun v =>
       match v with Number q => Qle_bool 0 q | _ => false end;
     Validator.isString := fun v => match v with Str _ => true | _ => false end;
     Validator.isIntMin0 := fun v =>
       match v with Number q => (isInteger q && Qle_bool 0 q)%bool | _ => false end;
     Validator.isBoolean := fun v => match v with Bool _ => true | _ => false end;
     Validator.isEmail := fun v =>
       match v with Str s => contains "@" s | _ => false end;
     Validator.isLengthMin6 := fun v =>
       match v with Str s => Nat.leb 6 (String.length s) | _ => false end |}.

(** The digits of [n] in base 16, least significant first, [k] of them. *)
Fixpoint hexDigits (k : nat) (n : N) : string :=
  match k with
  | O => EmptyString
  | S k' =>
      let d := N.to_nat (n mod 16)%N in
      String (ascii_of_nat (if Nat.ltb d 10 then 48 + d else 87 + d))
             (hexDigits k' (n / 16)%N)
  end.

Definition driver : Mongoose.Driver :=
  {| Mongoose.castString := fun v => match v with Str s => Some s | _ => None end;
     Mongoose.castNumber := fun v => match v with Number q => Some q | _ => None end;
     Mongoose.castBoolean := fun v => match v with Bool b => Some b | _ => None end;
     Mongoose.castObjectId := fun v =>
       match v with
       | Str s => if isObjectIdString s then Some (lower s) else None
       | _ => None
       end;
     Mongoose.trim := Validator.trim;
     Mongoose.newObjectId := fun store => hexDigits 24 (N.of_nat (size store));
     Mongoose.textMatch := fun q d => String.eqb q (Product.name d);
     Mongoose.sortRejected := fun spec =>
       existsb (fun kv => negb (JS.truthy (fst kv))) spec;
     Mongoose.sortDocs := fun _ docs => docs;
     Mongoose.sortByCreation := eq_refl |}.

Definition users : User.Model :=
  {| User.comparePassword := fun u v =>
       match v with
       | Str s => Some (String.eqb ("$2b$" ++ s) (User.password u))
       | _ => None
       end;
     User.hashPassword := fun v =>
       match v with Str s => Some ("$2b$" ++ s) | _ => None end;
     User.newUserId := fun us => hexDigits 24 (N.of_nat (length us)) |}.

(** *** A codec and a MAC for the token primitives

    A string is written as the bits of its characters, an integer as its
    sign and binary digits; the fields of a payload are separated by
    commas. *)
Definition bit (b : bool) : ascii := if b then "1"%char else "0"%char.

Definition unbit (c : ascii) : option bool :=
  if Ascii.eqb c "1" then Some true
  else if Ascii.eqb c "0" then Some false else None.

Fixpoint bitsOfString (s : string) : string :=
  match s with
  | EmptyString => EmptyString
  | String (Ascii b0 b1 b2 b3 b4 b5 b6 b7) s' =>
      String (bit b0) (String (bit b1) (String (bit b2) (String (bit b3)
      (String (bit b4) (String (bit b5) (String (bit b6) (String (bit b7)
      (bitsOfString s'))))))))
  end.

Fixpoint stringOfBits (s : string) : option string :=
  match s with
  | EmptyString => Some EmptyString
  | String c0 (String c1 (String c2 (String c3 (String c4 (String c5
      (String c6 (String c7 s'))))))) =>
      match unbit c0, unbit c1, unbit c2, unbit c3,
            unbit c4, unbit c5, unbit c6, unbit c7, stringOfBits s' with
      | Some b0, Some b1, Some b2, Some b3,
        Some b4, Some b5, Some b6, Some b7, Some r =>
          Some (String (Ascii b0 b1 b2 b3 b4 b5 b6 b7) r)
      | _, _, _, _, _, _, _, _, _ => None
      end
  | _ => None
  end.

Fixpoint bitsOfPositive (p : positive) : string :=
  match p with
  | xH => EmptyString
  | xO p' => String "0" (bitsOfPositive p')
  | xI p' => String "1" (bitsOfPositive p')
  end.

Fixpoint positiveOfBits (s : string) : option positive :=
  match s with
  | EmptyString => Some xH
  | String c s' =>
      match unbit c, positiveOfBits s' with
      | Some true, Some p => Some (xI p)
      | Some false, Some p => Some (xO p)
      | _, _ => None
      end
  end.

Definition bitsOfZ (z : Z) : string :=
  match z with
  | Z0 => "z"
  | Zpos p => String "p" (bitsOfPositive p)
  | Zneg p => String "n" (bitsOfPositive p)
  end.

Definition zOfBits (s : string) : option Z :=
  match s with
  | String "z" EmptyString => Some Z0
  | String "p" r => Zpos <$> positiveOfBits r
  | String "n" r => Zneg <$> positiveOfBits r
  | _ => None
  end.

Definition encodePayload (p : Jwt.Payload) : string :=
  bitsOfString (Jwt.sub p) ++ "," ++ bitsOfString (Jwt.email p) ++ ","
  ++ bitsOfZ (Jwt.iat p) ++ "," ++ bitsOfZ (Jwt.exp p).

Definition decodePayload (s : string) : option Jwt.Payload :=
  match JS.split "," s with
  | [a; b; c; d] =>
      match stringOfBits a, stringOfBits b,
            zOfBits c, zOfBits d with
      | Some sub, Some email, Some iat, Some exp =>
          Some {| Jwt.sub := sub; Jwt.email := email; Jwt.iat := iat; Jwt.exp := exp |}
      | _, _, _, _ => None
      end
  | _ => None
  end.

Definition primitives : Jwt.Primitives :=
  {| Jwt.headerSegment := "eyJhbGciOiJIUzI1NiIsInR5cCI6IkpXVCJ9";
     Jwt.encodePayload := encodePayload;
     Jwt.decodePayload := decodePayload;
     Jwt.hmac := fun k m => bitsOfString (k ++ m) |}.

Definition env : Env := {| JWT_SECRET := "troque_esta_chave"; JWT_EXPIRES_IN := 604800 |}.

End Sample.

(** ** The sort document in the words of the specification

    Each token of the comma-separated parameter contributes one entry: the
    field without its leading [-] mapped to descending, or the field mapped
    to ascending; a later token for the same field replaces an earlier
    one. *)
Definition contribution (tok : string) : string * Z :=
  match tok with
  | String "-" fld => (fld, -1)
  | _ => (tok, 1)
  end.

Definition describedSort (s : string) : gmap string Z :=
  list_to_map (reverse (contribution <$> JS.split "," s)).


(** ** Sample data *)

Module Example.

Definition alice : Identity :=
  {| id := "64b7f0c2a1d3e4f5a6b7c8d9"; email := "alice@mail.com" |}.

Definition bob : Identity :=
  {| id := "64b7f0c2a1d3e4f5a6b7c8e0"; email := "bob@mail.com" |}.

Definition keyboardId : string := "650a1b2c3d4e5f6071829301".

Definition keyboard : Product.Doc :=
  {| Product.name := "Teclado"; Product.description := "Mecânico";
     Product.price := 1999 # 10; Product.stock := 10;
     Product.active := true; Product.owner := id alice |}.

Definition retired : Product.Doc := Product.setActive false keyboard.

Definition shelf : Products := {[ keyboardId := keyboard ]}.

Definition attic : Products := {[ keyboardId := retired ]}.

Definition lucas : User.Doc :=
  {| User._id := "64b7f0c2a1d3e4f5a6b7c8d9"; User.name := "Lucas";
     User.email := "lucas@mail.com"; User.password := "$2b$123456" |}.

Definition noQuery : Query :=
  {| q_page := None; q_limit := None; q_search := None; q_sort := None |}.

End Example.

(** ** routes/auth.routes.js: the profile route *)

(** [{ _id, name, email }], what [.select('_id name email createdAt')]
    keeps of a user (timestamps are not modelled). *)
Record Profile := {
  profile_id : string;
  profile_name : string;
  profile_email : string
}.

Section ProfileRoute.
Context (M : Mongoose.Driver).

(** [User.findById(id)] *)
Definition findUserById (uid : string) (users : list User.Doc)
  : Result (option User.Doc) :=
  match Mongoose.castObjectId M (Str uid) with
  | None => throwFatal "CastError"
  | Some o => inr (List.find (fun u => String.eqb (User._id u) o) users)
  end.

(** [GET /auth/me], after [auth]: [res.json(me)], which is [null] when no
    user has the id. *)
Definition me (user : Identity) (users : list User.Doc) : Result (option Profile) :=
  match findUserById (id user) users with
  | inl err => inl err
  | inr found =>
      inr ((fun u => {| profile_id := User._id u; profile_name := User.name u;
                        profile_email := User.email u |}) <$> found)
  end.
End ProfileRoute.

(** ** Further sample data *)

Module Scenario.

Definition mouseBody : Body :=
  {[ "name" := Str "Mouse"; "price" := Number (599 # 10) ]}.

Definition anaBody : Body :=
  {[ "name" := Str "Ana"; "email" := Str "ana@mail.com"; "password" := Str "segredo1" ]}.

Definition anaLogin : Body :=
  {[ "email" := Str "ana@mail.com"; "password" := Str "segredo1" ]}.

Definition lucasLogin : Body :=
  {[ "email" := Str "lucas@mail.com"; "password" := Str "123456" ]}.

Definition mouse : Product.Doc :=
  {| Product.name := "Mouse"; Product.description := ""; Product.price := 599 # 10;
     Product.stock := 0; Product.active := true; Product.owner := id Example.bob |}.

Definition mouseId : string := "650a1b2c3d4e5f6071829302".

Definition stock2 : Products :=
  {[ Example.keyboardId := Example.keyboard; mouseId := mouse ]}.

Definition pageQuery (p l : string) : Query :=
  {| q_page := Some p; q_limit := Some l; q_search := None; q_sort := None |}.

End Scenario.

(** ** What a caller sees of a failure *)

(** The result, when it is a failure, is rendered by the error handler
    with one of the given statuses, and with the [errors] list exactly
    when the status is 422. *)
Definition failureIn {A} (r : Result A) (codes : list Z) : Prop :=
  match r with
  | inl err =>
      In (fst (errorHandler err)) codes
      /\ (fst (errorHandler err) = 422
          <-> exists errs, snd (errorHandler err) = ErrorsField errs)
  | inr _ => True
  end.

(** [GET /auth/me] mounted behind the guard. *)
Definition meRoute (P : Jwt.Primitives) (env : Env) (now : Z) (M : Mongoose.Driver)
    (authorization : option string) (users : list User.Doc)
  : Result (option Profile) * list User.Doc :=
  protected P env now authorization (fun user us => (me M user us, us)) users.

(** [PATCH /products/:id] mounted behind the guard. *)
Definition patchRoute (P : Jwt.Primitives) (env : Env) (now : Z)
    (V : Validator.Checks) (M : Mongoose.Driver)
    (authorization : option string) (_id : string) (body : Body) (store : Products)
  : Result Product.Doc * Products :=
  protected P env now authorization (fun user => patchProduct V M user _id body) store.

(** * Properties *)

(** ** Strings *)

Lemma startsWith_spec (s p : string) :
  JS.startsWith s p = true <-> exists rest, s = p ++ rest.
Proof.
  revert s. induction p as [|c p IH]; intros s; simpl.
  - split; [intros _; by exists s | done].
  - destruct s as [|d s].
    + split; [done | intros [rest H]; discriminate].
    + destruct (Ascii.eqb_spec c d) as [->|Hne].
      * rewrite IH. split; intros [rest H]; exists rest.
        -- by rewrite H.
        -- by injection H.
      * split; [done | intros [rest H]; injection H; congruence].
Qed.

Lemma split_not_nil (sep : ascii) (s : string) : JS.split sep s <> [].
Proof.
  induction s as [|c s IH]; simpl; [done|].
  destruct (Ascii.eqb c sep); [done|]. by destruct (JS.split sep s).
Qed.

Lemma join_cons (sep : ascii) (t : string) (toks : list string) :
  toks <> [] -> JS.join sep (t :: toks) = t ++ String sep (JS.join sep toks).
Proof. by destruct toks. Qed.

(** [split] is inverted by [join] ... *)
Lemma join_split (sep : ascii) (s : string) : JS.join sep (JS.split sep s) = s.
Proof.
  induction s as [|c s IH]; simpl; [done|].
  destruct (Ascii.eqb_spec c sep) as [->|Hne].
  - rewrite join_cons by apply split_not_nil. simpl. by rewrite IH.
  - pose proof (split_not_nil sep s) as Hnil.
    destruct (JS.split sep s) as [|tok rest]; [done|].
    destruct rest as [|tok' rest].
    + simpl in *. by rewrite IH.
    + rewrite join_cons by done. rewrite join_cons in IH by done.
      by rewrite <- IH.
Qed.

(** ... and no token contains the separator. *)
Lemma split_free (sep : ascii) (s : string) :
  Forall (fun tok => JS.free_of sep tok = true) (JS.split sep s).
Proof.
  induction s as [|c s IH]; simpl.
  - by constructor.
  - destruct (Ascii.eqb c sep) eqn:Hc.
    + by constructor.
    + destruct (JS.split sep s) as [|tok rest]; simpl.
      * constructor; [simpl; by rewrite Hc | done].
      * inversion IH; subst. constructor; [simpl; by rewrite Hc | done].
Qed.

Lemma split_app_free (sep : ascii) (a b : string) :
  JS.free_of sep a = true ->
  JS.split sep (a ++ String sep b) = a :: JS.split sep b.
Proof.
  induction a as [|c a IH]; simpl; intros Hfree.
  - by rewrite Ascii.eqb_refl.
  - destruct (Ascii.eqb c sep); [done|]. by rewrite IH.
Qed.

Lemma split_free_single (sep : ascii) (a : string) :
  JS.free_of sep a = true -> JS.split sep a = [a].
Proof.
  induction a as [|c a IH]; simpl; intros Hfree; [done|].
  destruct (Ascii.eqb c sep); [done|]. by rewrite IH.
Qed.

Lemma free_of_app (sep : ascii) (a b : string) :
  JS.free_of sep (a ++ b) = (JS.free_of sep a && JS.free_of sep b)%bool.
Proof.
  induction a as [|c a IH]; simpl; [done|]. by destruct (Ascii.eqb c sep).
Qed.

(** ** The guard *)

Section AuthFacts.
Context (P : Jwt.Primitives) (env : Env) (now : Z).

(** The guard calls the library at most once, and only on the text
    after the prefix. *)
Lemma auth_events (authorization : option string) (ev : Event) :
  In ev (snd (auth P env now authorization)) ->
  exists rest, authorization = Some ("Bearer " ++ rest)
               /\ ev = JwtVerify rest (JWT_SECRET env).
Proof.
  unfold auth.
  destruct (JS.startsWith (default "" authorization) "Bearer ") eqn:Hpre; [|done].
  apply startsWith_spec in Hpre as [rest Hrest].
  destruct authorization as [h|]; simpl in Hrest; [|discriminate Hrest]. subst h.
  change (JS.slice 7 (default "" (Some ("Bearer " ++ rest)))) with rest.
  destruct (JS.truthy rest); [|done].
  destruct (Jwt.verify P rest (JWT_SECRET env) now); simpl;
    intros [<-|[]]; by exists rest.
Qed.
End AuthFacts.

(** Without the prefix the guard answers at once. *)
Lemma auth_without_prefix
    (P : Jwt.Primitives) (env : Env) (now : Z) (authorization : option string) :
  ~ hasBearerPrefix authorization ->
  auth P env now authorization = (throw "Token não informado" 401, []).
Proof.
  intros Hno. unfold auth.
  destruct (JS.startsWith (default "" authorization) "Bearer ") eqn:Hpre; [|done].
  apply startsWith_spec in Hpre as [rest Hrest].
  destruct authorization as [h|]; simpl in Hrest; [|discriminate Hrest].
  exfalso. apply Hno. exists rest. by rewrite Hrest.
Qed.

(** A route behind the guard does not run its handler for such a request. *)
Lemma protected_without_prefix {A S : Type}
    (P : Jwt.Primitives) (env : Env) (now : Z) (authorization : option string)
    (handler : Identity -> S -> Result A * S) (state : S) :
  ~ hasBearerPrefix authorization ->
  protected P env now authorization handler state
  = (throw "Token não informado" 401, state).
Proof. intros Hno. unfold protected. by rewrite auth_without_prefix. Qed.

(** C10. The guard recognises a credential only behind the exact prefix
    "Bearer ": for a request whose authorization header is absent or does
    not begin with these seven characters, the guard fails with status 401
    and the message of a missing token, and the token library is not
    called. *)
Theorem auth_requires_bearer_prefix
    (P : Jwt.Primitives) (env : Env) (now : Z) (authorization : option string) :
  ~ hasBearerPrefix authorization ->
  auth P env now authorization = (throw "Token não informado" 401, [])
  /\ failsWith (fst (auth P env now authorization)) 401
  /\ snd (auth P env now authorization) = [].
Proof.
  intros Hno. by rewrite auth_without_prefix.
Qed.

Lemma auth_requires_bearer_prefix_witness :
  ~ hasBearerPrefix (Some "bearer abc.def.ghi")
  /\ auth Sample.primitives Sample.env 0 (Some "bearer abc.def.ghi")
     = (throw "Token não informado" 401, []).
Proof.
  assert (~ hasBearerPrefix (Some "bearer abc.def.ghi")) as H
    by (intros [rest Hrest]; discriminate Hrest).
  split; [exact H|].
  exact (proj1 (auth_requires_bearer_prefix Sample.primitives Sample.env 0 _ H)).
Defined.

(** The prefix is matched character for character: another case, a
    missing or a leading space, or no token after the prefix do not give a
    credential. *)
Example bearer_prefix_is_exact :
  Forall (fun h => auth Sample.primitives Sample.env 0 (Some h)
                   = (throw "Token não informado" 401, []))
    ["bearer abc.def.ghi"; "BEARER abc.def.ghi"; "Bearerabc.def.ghi";
     " Bearer abc.def.ghi"; "Basic abc"; "Bearer "; ""].
Proof. repeat constructor. Qed.

(** ** Documents and the collection *)

Lemma validates_setActive (b : bool) (d : Product.Doc) :
  Product.validates (Product.setActive b d) = Product.validates d.
Proof. done. Qed.

Section ModelFacts.
Context (M : Mongoose.Driver).

(** What one assignment does to the [active] and [owner] paths. *)
Lemma set_active_owner (d d' : Product.Doc) (path : string) (v : JSValue) :
  Mongoose.set M d path v = Some d' ->
  (if String.eqb path "active"
   then Mongoose.castBoolean M v = Some (Product.active d')
   else Product.active d' = Product.active d)
  /\ (if String.eqb path "owner"
      then Mongoose.castObjectId M v = Some (Product.owner d')
      else Product.owner d' = Product.owner d).
Proof.
  unfold Mongoose.set.
  repeat match goal with
    | |- context [String.eqb path ?k] =>
        destruct (String.eqb_spec path k) as [->|?];
        [ simpl; intros; simplify_option_eq; split; by eauto |]
    end.
  by intros [= <-].
Qed.

(** [Object.assign] on the [active] and [owner] paths: a key of the body
    decides the path, a path without key keeps its value. *)
Lemma assign_active_owner (d d' : Product.Doc) (body : Body) :
  Mongoose.assign M d body = Some d' ->
  match body !! "active" with
  | Some v => Mongoose.castBoolean M v = Some (Product.active d')
  | None => Product.active d' = Product.active d
  end
  /\ match body !! "owner" with
     | Some v => Mongoose.castObjectId M v = Some (Product.owner d')
     | None => Product.owner d' = Product.owner d
     end.
Proof.
  unfold Mongoose.assign. revert d'.
  apply (map_fold_weak_ind
           (fun r (m : Body) => forall d', r = Some d' ->
              match m !! "active" with
              | Some v => Mongoose.castBoolean M v = Some (Product.active d')
              | None => Product.active d' = Product.active d
              end
              /\ match m !! "owner" with
                 | Some v => Mongoose.castObjectId M v = Some (Product.owner d')
                 | None => Product.owner d' = Product.owner d
                 end)).
  - intros d' [= <-]. by rewrite !lookup_empty.
  - intros path v m r Hfresh IH d' Hset.
    destruct r as [d0|]; [|done]. simpl in Hset.
    destruct (IH d0 eq_refl) as [IHa IHo].
    destruct (set_active_owner _ _ _ _ Hset) as [Ha Ho].
    split.
    + destruct (String.eqb_spec path "active") as [->|Hne].
      * by rewrite lookup_insert_eq.
      * rewrite lookup_insert_ne by done. rewrite Ha.
        by destruct (m !! "active").
    + destruct (String.eqb_spec path "owner") as [->|Hne].
      * by rewrite lookup_insert_eq.
      * rewrite lookup_insert_ne by done. rewrite Ho.
        by destruct (m !! "owner").
Qed.

Lemma assign_singleton (d : Product.Doc) (path : string) (v : JSValue) :
  Mongoose.assign M d {[ path := v ]} = Mongoose.set M d path v.
Proof. unfold Mongoose.assign. by rewrite map_fold_singleton. Qed.
End ModelFacts.

(** ** Access control on update and delete *)

Lemma check_nil (p m : string) (ok : bool) :
  Validator.check p ok m = [] <-> ok = true.
Proof. unfold Validator.check. destruct ok; split; done. Qed.

Lemma patchErrors_id (V : Validator.Checks) (_id : string) (body : Body) :
  patchErrors V _id body = [] -> Validator.isMongoId V _id = true.
Proof.
  unfold patchErrors. intros H. apply app_eq_nil in H as [H _].
  by apply check_nil in H.
Qed.




(** A string that the validator of the route accepts and the cast
    rejects: the query throws, and update and delete fail as the error
    handler renders an error without a status, for every actor. *)
Lemma uncastable_id_is_fatal
    (V : Validator.Checks) (M : Mongoose.Driver)
    (user : Identity) (rid : string) (body : Body) (store : Products) :
  patchErrors V rid body = [] ->
  Mongoose.castObjectId M (Str rid) = None ->
  patchProductById V M user rid body store = (throwFatal "CastError", store)
  /\ deleteProductById V M user rid store = (throwFatal "CastError", store)
  /\ getProductById V M rid store = throwFatal "CastError"
  /\ failsWith (getProductById V M rid store) 500.
Proof.
  intros Hvalid Hcast. pose proof (patchErrors_id _ _ _ Hvalid) as Hid.
  unfold patchProductById, deleteProductById, getProductById, findByRequestId.
  rewrite Hvalid, (proj2 (check_nil _ _ _) Hid), Hcast. done.
Qed.

(** On the string of an ObjectId the routes are the handlers above. *)
Lemma routes_on_object_id
    (V : Validator.Checks) (M : Mongoose.Driver)
    (user : Identity) (_id : string) (body : Body) (store : Products) :
  Mongoose.castObjectId M (Str _id) = Some _id ->
  getProductById V M _id store = getProduct V _id store
  /\ patchProductById V M user _id body store = patchProduct V M user _id body store
  /\ deleteProductById V M user _id store = deleteProduct V user _id store.
Proof.
  intros Hcast.
  unfold getProductById, patchProductById, deleteProductById, findByRequestId,
    getProduct, patchProduct, deleteProduct, Mongoose.findById.
  rewrite Hcast. by destruct (store !! _id).
Qed.

(** The validator takes a [0x] before the digits, the cast does not. *)
Example prefixed_id_passes_the_validator :
  Validator.isMongoId Sample.checks "0x0a1b2c3d4e5f6071829301" = true
  /\ getProductById Sample.checks Sample.driver "0x0a1b2c3d4e5f6071829301" Example.shelf
     = throwFatal "CastError"
  /\ getProductById Sample.checks Sample.driver "650A1B2C3D4E5F6071829301" Example.shelf
     = inr Example.keyboard.
Proof. repeat split; vm_compute; reflexivity. Qed.

(** ** Soft delete *)

(** C5. A delete authorised on an active product of the actor (a stored
    document that satisfies its schema, under a well-formed id) sets the
    [active] flag to false and keeps the record, every other record
    untouched; a second delete of the same product, by anyone, fails with
    NotFound (404) and changes nothing. *)
Theorem soft_delete_then_not_found
    (V : Validator.Checks) (user : Identity) (_id : string)
    (p : Product.Doc) (store : Products) :
  Validator.isMongoId V _id = true ->
  store !! _id = Some p ->
  Product.active p = true ->
  Product.owner p = id user ->
  Product.validates p = true ->
  let after := <[_id := Product.setActive false p]> store in
  deleteProduct V user _id store = (inr tt, after)
  /\ after !! _id = Some (Product.setActive false p)
  /\ (forall k, k <> _id -> after !! k = store !! k)
  /\ (forall actor,
        deleteProduct V actor _id after = (throw "Produto não encontrado" 404, after)
        /\ failsWith (fst (deleteProduct V actor _id after)) 404).
Proof.
  intros Hid Hp Hactive Howner Hvalid after.
  assert (after !! _id = Some (Product.setActive false p)) as Hafter
    by apply lookup_insert_eq.
  split; [|split; [done|split]].
  - unfold deleteProduct, Mongoose.findById, Mongoose.save.
    rewrite (proj2 (check_nil _ _ _) Hid). rewrite Hp, Hactive, Howner. simpl.
    rewrite String.eqb_refl. simpl.
    by rewrite validates_setActive, Hvalid.
  - intros k Hk. unfold after. by rewrite lookup_insert_ne.
  - intros actor.
    assert (deleteProduct V actor _id after
            = (throw "Produto não encontrado" 404, after)) as Hagain.
    { unfold deleteProduct, Mongoose.findById.
      rewrite (proj2 (check_nil _ _ _) Hid). by rewrite Hafter. }
    by rewrite Hagain.
Qed.

Lemma soft_delete_then_not_found_witness :
  deleteProduct Sample.checks Example.alice Example.keyboardId Example.shelf
  = (inr tt, Example.attic)
  /\ failsWith
       (fst (deleteProduct Sample.checks Example.alice Example.keyboardId
               Example.attic)) 404.
Proof.
  pose proof (soft_delete_then_not_found Sample.checks Example.alice
                Example.keyboardId Example.keyboard Example.shelf
                eq_refl eq_refl eq_refl eq_refl eq_refl) as (Hfirst & _ & _ & Hsecond).
  split.
  - rewrite Hfirst. reflexivity.
  - exact (proj2 (Hsecond Example.alice)).
Defined.

(** ** Update and the [active] flag *)

(** Whatever else the body carries, the stored flag of an accepted update
    is the boolean the [active] key casts to, and the flag is kept when
    the body has no such key. *)
Lemma patch_writes_body_active
    (V : Validator.Checks) (M : Mongoose.Driver) (user : Identity) (_id : string)
    (body : Body) (store store' : Products) (p d : Product.Doc) :
  store !! _id = Some p ->
  patchProduct V M user _id body store = (inr d, store') ->
  store' !! _id = Some d
  /\ match body !! "active" with
     | Some v => Mongoose.castBoolean M v = Some (Product.active d)
     | None => Product.active d = Product.active p
     end.
Proof.
  intros Hp. unfold patchProduct, Mongoose.findById, Mongoose.save.
  destruct (patchErrors V _id body); [|done]. rewrite Hp.
  destruct (Product.active p) eqn:Hactive; [|done]. simpl.
  destruct (String.eqb (Product.owner p) (id user)); [|done]. simpl.
  destruct (Mongoose.assign M p body) as [d'|] eqn:Hassign; [|done].
  destruct (Product.validates d'); [|done].
  intros [= <- <-].
  apply assign_active_owner in Hassign as [Ha _].
  split; [apply lookup_insert_eq|].
  destruct (body !! "active"); [done | by rewrite Ha].
Qed.

(** C3, as the code has it. For a product whose stored [active] flag is
    true and its owner as actor, a valid update whose body is
    [{ active: v }] stores the boolean [v] casts to, whichever it is; for
    a product whose stored flag is false the same request fails with
    NotFound (404) and the collection is unchanged: an update does not
    reactivate. *)
Theorem update_sets_active_of_active_product
    (V : Validator.Checks) (M : Mongoose.Driver) (user : Identity) (_id : string)
    (p : Product.Doc) (v : JSValue) (b : bool) (store : Products) :
  patchErrors V _id {[ "active" := v ]} = [] ->
  Mongoose.castBoolean M v = Some b ->
  store !! _id = Some p ->
  Product.owner p = id user ->
  Product.validates p = true ->
  (Product.active p = true ->
   patchProduct V M user _id {[ "active" := v ]} store
   = (inr (Product.setActive b p), <[_id := Product.setActive b p]> store))
  /\ (Product.active p = false ->
      patchProduct V M user _id {[ "active" := v ]} store
      = (throw "Produto não encontrado" 404, store)).
Proof.
  intros Hvalid Hcast Hp Howner Hschema.
  unfold patchProduct, Mongoose.findById. rewrite Hvalid, Hp.
  split; intros ->; [|done]. simpl.
  rewrite Howner, String.eqb_refl. simpl.
  rewrite assign_singleton. unfold Mongoose.set. simpl. rewrite Hcast. simpl.
  unfold Mongoose.save. by rewrite validates_setActive, Hschema.
Qed.

Lemma update_sets_active_of_active_product_witness :
  patchProduct Sample.checks Sample.driver Example.alice Example.keyboardId
    {[ "active" := Bool false ]} Example.shelf
  = (inr Example.retired, <[Example.keyboardId := Example.retired]> Example.shelf).
Proof.
  apply (update_sets_active_of_active_product Sample.checks Sample.driver
           Example.alice Example.keyboardId Example.keyboard (Bool false) false
           Example.shelf);
    vm_compute; reflexivity.
Defined.

(** C3 as the specification states it fails: the owner's valid
    update with [active = true] on a product whose stored flag is false
    is answered NotFound, and the stored flag stays false. *)
Lemma update_does_not_reactivate :
  Example.attic !! Example.keyboardId = Some Example.retired
  /\ Product.active Example.retired = false
  /\ Product.owner Example.retired = id Example.alice
  /\ patchErrors Sample.checks Example.keyboardId {[ "active" := Bool true ]} = []
  /\ patchProduct Sample.checks Sample.driver Example.alice Example.keyboardId
       {[ "active" := Bool true ]} Example.attic
     = (throw "Produto não encontrado" 404, Example.attic).
Proof. repeat split; vm_compute; reflexivity. Qed.

(** ** The [owner] path *)

Section OwnerFacts.
Context (V : Validator.Checks) (M : Mongoose.Driver).

(** Create takes the owner from the identity of the caller: the stored
    owner is the cast of [req.user.id] ... *)
Lemma create_owner_is_caller (user : Identity) (body : Body) (store store' : Products)
    (k : string) (d : Product.Doc) :
  createProduct V M user body store = (inr (k, d), store') ->
  Mongoose.castObjectId M (Str (id user)) = Some (Product.owner d)
  /\ Product.active d = true
  /\ store' !! k = Some d.
Proof.
  unfold createProduct.
  destruct (_ ++ _)%list; [|done].
  unfold Mongoose.create.
  destruct (field body "name"), (field body "price"); try done;
    repeat match goal with
      | |- context [match ?c M ?v with _ => _ end] => destruct (c M v) eqn:?; try done
      end;
    match goal with
    | |- context [Product.validates ?doc] => destruct (Product.validates doc); [|done]
    end;
    intros [= <- <- <-]; (split; [done | split; [done | apply lookup_insert_eq]]).
Qed.

(** ... and an [owner] key of the body is never read. *)
Lemma create_ignores_body_owner (user : Identity) (body : Body) (v : JSValue)
    (store : Products) :
  createProduct V M user (<["owner" := v]> body) store = createProduct V M user body store.
Proof.
  unfold createProduct, field. by rewrite !lookup_insert_ne by done.
Qed.

(** Update keeps the owner when the body has no [owner] key. *)
Lemma patch_keeps_owner_without_key (user : Identity) (_id : string) (body : Body)
    (store store' : Products) (p d : Product.Doc) :
  store !! _id = Some p ->
  body !! "owner" = None ->
  patchProduct V M user _id body store = (inr d, store') ->
  Product.owner d = Product.owner p /\ store' !! _id = Some d.
Proof.
  intros Hp Hkey. unfold patchProduct, Mongoose.findById, Mongoose.save.
  destruct (patchErrors V _id body); [|done]. rewrite Hp.
  destruct (Product.active p); [|done]. simpl.
  destruct (String.eqb (Product.owner p) (id user)); [|done]. simpl.
  destruct (Mongoose.assign M p body) as [d'|] eqn:Hassign; [|done].
  destruct (Product.validates d'); [|done].
  intros [= <- <-].
  apply assign_active_owner in Hassign as [_ Ho]. rewrite Hkey in Ho.
  split; [done | apply lookup_insert_eq].
Qed.

(** Update writes the owner the body names: [Object.assign] copies every
    key of the body onto the document. *)
Lemma patch_writes_body_owner (user : Identity) (_id : string) (v : JSValue)
    (o : string) (store : Products) (p : Product.Doc) :
  patchErrors V _id {[ "owner" := v ]} = [] ->
  Mongoose.castObjectId M v = Some o ->
  store !! _id = Some p ->
  Product.active p = true ->
  Product.owner p = id user ->
  Product.validates p = true ->
  patchProduct V M user _id {[ "owner" := v ]} store
  = (inr (Product.setOwner o p), <[_id := Product.setOwner o p]> store).
Proof.
  intros Hvalid Hcast Hp Hactive Howner Hschema.
  unfold patchProduct, Mongoose.findById. rewrite Hvalid, Hp, Hactive. simpl.
  rewrite Howner, String.eqb_refl. simpl.
  rewrite assign_singleton. unfold Mongoose.set. simpl. rewrite Hcast. simpl.
  unfold Mongoose.save.
  replace (Product.validates (Product.setOwner o p)) with (Product.validates p) by done.
  by rewrite Hschema.
Qed.
End OwnerFacts.

(** C2, at the input where the code departs from it. Alice owns the
    keyboard; her valid update with the body [{ owner: <Bob's id> }] is
    answered with the updated document and the stored owner is Bob, not
    the creator. *)
Theorem update_replaces_owner :
  Example.shelf !! Example.keyboardId = Some Example.keyboard
  /\ Product.owner Example.keyboard = id Example.alice
  /\ patchErrors Sample.checks Example.keyboardId
       {[ "owner" := Str (id Example.bob) ]} = []
  /\ patchProduct Sample.checks Sample.driver Example.alice Example.keyboardId
       {[ "owner" := Str (id Example.bob) ]} Example.shelf
     = (inr (Product.setOwner (id Example.bob) Example.keyboard),
        {[ Example.keyboardId := Product.setOwner (id Example.bob) Example.keyboard ]})
  /\ id Example.bob <> id Example.alice.
Proof.
  repeat split; try (vm_compute; reflexivity).
  vm_compute. discriminate.
Qed.

(** ** Read paths *)

Section ReadFacts.
Context (V : Validator.Checks) (M : Mongoose.Driver).

(** Every selected entry is a stored document that the filter matches. *)
Lemma selected_spec (f : Mongoose.Filter) (store : Products) (kv : string * Product.Doc) :
  kv ∈ Mongoose.selected M f store <->
  store !! fst kv = Some (snd kv) /\ Mongoose.matches M f (snd kv) = true.
Proof.
  unfold Mongoose.selected. rewrite list_elem_of_In, filter_In, <- list_elem_of_In.
  destruct kv as [k d]. by rewrite elem_of_map_to_list.
Qed.

Lemma matches_active (f : Mongoose.Filter) (d : Product.Doc) :
  Mongoose.activeIs f = Some true ->
  Mongoose.matches M f d = true -> Product.active d = true.
Proof.
  unfold Mongoose.matches. intros ->. destruct (Product.active d); [done|].
  simpl. done.
Qed.

(** What a query returns was selected, whatever the sort, skip and limit. *)
Lemma find_selected (f : Mongoose.Filter) (sort : JSObject.t) (skip limit : Z)
    (store : Products) (found : list (string * Product.Doc))
    (kv : string * Product.Doc) :
  (forall srt docs, Mongoose.sortDocs M srt docs ≡ₚ docs) ->
  Mongoose.find M f sort skip limit store = inr found ->
  kv ∈ found -> kv ∈ Mongoose.selected M f store.
Proof.
  intros Hsort Hfind Hin. unfold Mongoose.find in Hfind.
  destruct (Mongoose.sortRejected M _); [done|]. injection Hfind as <-.
  apply subseteq_take, subseteq_drop in Hin.
  by rewrite Hsort in Hin.
Qed.

Lemma find_length (f : Mongoose.Filter) (sort : JSObject.t) (skip limit : Z)
    (store : Products) (found : list (string * Product.Doc)) :
  Mongoose.find M f sort skip limit store = inr found ->
  (length found <= Z.to_nat limit)%nat.
Proof.
  unfold Mongoose.find. destruct (Mongoose.sortRejected M _); [done|].
  intros [= <-]. rewrite length_take. lia.
Qed.

(** A listing is the query it makes, or the failure of its chains or of
    that query. *)
Lemma listProducts_inr (q : Query) (store : Products) (l : Listing) :
  listProducts M q store = inr l <->
  (intParam "page" (q_page q) 1 None ++ intParam "limit" (q_limit q) 1 (Some 100))%list = []
  /\ Mongoose.find M (buildFilter (q_search q)) (buildSort (q_sort q))
       ((intOr (q_page q) 1 - 1) * intOr (q_limit q) 10) (intOr (q_limit q) 10) store
     = inr (items l)
  /\ page l = intOr (q_page q) 1
  /\ limit l = intOr (q_limit q) 10
  /\ total l = Mongoose.countDocuments M (buildFilter (q_search q)) store.
Proof.
  unfold listProducts. destruct (_ ++ _)%list.
  - destruct (Mongoose.find _ _ _ _ _ _) as [err|found].
    + split; [done | by intros (_ & ? & _)].
    + split.
      * by intros [= <-].
      * intros (_ & [= ->] & Hp & Hl & Ht). destruct l. simpl in *. by subst.
  - split; [done | by intros [? _]].
Qed.
End ReadFacts.

(** What read-by-id answers, for every string of the path. *)
Lemma getProductById_answers
    (V : Validator.Checks) (M : Mongoose.Driver) (rid : string) (store : Products)
    (p : Product.Doc) :
  getProductById V M rid store = inr p <->
  Validator.isMongoId V rid = true
  /\ exists _id, Mongoose.castObjectId M (Str rid) = Some _id
                 /\ store !! _id = Some p /\ Product.active p = true.
Proof.
  unfold getProductById, findByRequestId, Mongoose.findById, Validator.check.
  destruct (Validator.isMongoId V rid); [|split; [done | by intros [? _]]].
  destruct (Mongoose.castObjectId M (Str rid)) as [o|];
    [|split; [done | by intros (_ & ? & ? & _)]].
  destruct (store !! o) as [item|] eqn:Hitem; simpl.
  - destruct (Product.active item) eqn:Hactive; simpl.
    + split.
      * intros [= <-]. split; [done|]. by exists o.
      * intros (_ & ? & [= <-] & Hp & _). rewrite Hitem in Hp. by injection Hp as <-.
    + split; [done|]. intros (_ & ? & [= <-] & Hp & Hact).
      rewrite Hitem in Hp. injection Hp as <-. congruence.
  - split; [done|]. intros (_ & ? & [= <-] & Hp & _). by rewrite Hitem in Hp.
Qed.

(** C4, as the code has it. Inactive products are not observable through
    the read paths. The filter of every listing has [active: true], and
    (the driver ordering a result without changing its members) every item
    a listing returns is a stored document with [active = true]. Read-by-id
    answers a product exactly when the validator accepts the id of the
    path, the cast gives an ObjectId, and the product is stored under it
    with [active = true]; for an id the validator accepts and the cast
    takes, it fails with NotFound (404) when the product is missing or
    inactive; and an id the validator rejects fails with 422. *)
Theorem inactive_products_are_not_read
    (V : Validator.Checks) (M : Mongoose.Driver) (q : Query) (store : Products) :
  (forall srt docs, Mongoose.sortDocs M srt docs ≡ₚ docs) ->
  Mongoose.activeIs (buildFilter (q_search q)) = Some true
  /\ (forall l, listProducts M q store = inr l ->
        Forall (fun kv => store !! fst kv = Some (snd kv)
                          /\ Product.active (snd kv) = true) (items l))
  /\ (forall rid p,
        getProductById V M rid store = inr p <->
        Validator.isMongoId V rid = true
        /\ exists _id, Mongoose.castObjectId M (Str rid) = Some _id
                       /\ store !! _id = Some p /\ Product.active p = true)
  /\ (forall rid _id,
        Validator.isMongoId V rid = true ->
        Mongoose.castObjectId M (Str rid) = Some _id ->
        (store !! _id = None
         \/ exists p, store !! _id = Some p /\ Product.active p = false) ->
        getProductById V M rid store = throw "Produto não encontrado" 404
        /\ failsWith (getProductById V M rid store) 404)
  /\ (forall rid,
        Validator.isMongoId V rid = false ->
        failsWith (getProductById V M rid store) 422).
Proof.
  intros Hsort. split; [done|]. split; [|split; [|split]].
  - intros l (_ & Hfind & _)%listProducts_inr.
    apply Forall_forall. intros kv Hin.
    apply (find_selected M _ _ _ _ _ _ _ Hsort Hfind) in Hin.
    apply selected_spec in Hin as [Hstored Hmatch].
    split; [done|]. by apply (matches_active M (buildFilter (q_search q))).
  - intros rid p. apply getProductById_answers.
  - intros rid o Hid Hcast.
    unfold getProductById, findByRequestId, Mongoose.findById.
    rewrite (proj2 (check_nil _ _ _) Hid), Hcast.
    intros [-> | (p & -> & Hinactive)]; simpl; [done|]. by rewrite Hinactive.
  - intros rid Hid. unfold getProductById, Validator.check. by rewrite Hid.
Qed.

Lemma inactive_products_are_not_read_witness :
  listProducts Sample.driver Example.noQuery Example.attic
  = inr {| page := 1; limit := 10; total := 0; items := [] |}
  /\ failsWith (getProductById Sample.checks Sample.driver Example.keyboardId
                  Example.attic) 404.
Proof.
  assert (forall (srt : list (string * Z)) (docs : list (string * Product.Doc)),
             Mongoose.sortDocs Sample.driver srt docs ≡ₚ docs) as Hsort by done.
  pose proof (inactive_products_are_not_read Sample.checks Sample.driver
                Example.noQuery Example.attic Hsort)
    as (_ & _ & _ & Hget & _).
  split; [vm_compute; reflexivity|].
  apply (Hget Example.keyboardId Example.keyboardId); [vm_compute; reflexivity..|].
  right. exists Example.retired. split; vm_compute; reflexivity.
Defined.

(** C4 as the specification states it fails for an id that is not
    well formed: no product is stored under it, and read-by-id answers 422,
    not 404. *)
Lemma malformed_id_is_not_a_missing_product :
  Example.shelf !! "42" = None
  /\ getProductById Sample.checks Sample.driver "42" Example.shelf
     = throwViolations [{| param := "id"; msg := "Invalid value" |}]
  /\ failsWith (getProductById Sample.checks Sample.driver "42" Example.shelf) 422
  /\ ~ failsWith (getProductById Sample.checks Sample.driver "42" Example.shelf) 404.
Proof.
  repeat split; try (vm_compute; reflexivity).
  vm_compute. discriminate.
Qed.

(** ** Login *)

(** C7. A login whose email belongs to no user and a login whose email
    belongs to a user but whose password does not match (both requests
    passing the validators of the route) throw the same error: the two
    handler results are equal, an [AppError] with status 401 and the
    message of invalid credentials, rendered by the error handler as the
    same status and body. *)
Theorem login_failures_are_uniform
    (V : Validator.Checks) (M : Mongoose.Driver) (U : User.Model)
    (P : Jwt.Primitives) (env : Env) (now : Z)
    (unknown known : Body) (user : User.Doc) (users : list User.Doc) :
  Validator.isEmail V (field unknown "email") = true ->
  Validator.notEmpty V (field unknown "password") = true ->
  Validator.isEmail V (field known "email") = true ->
  Validator.notEmpty V (field known "password") = true ->
  User.findOne M (field unknown "email") users = inr None ->
  User.findOne M (field known "email") users = inr (Some user) ->
  User.comparePassword U user (field known "password") = Some false ->
  login V M U P env now unknown users = login V M U P env now known users
  /\ login V M U P env now unknown users = throw "Credenciais inválidas" 401
  /\ (forall err, login V M U P env now known users = inl err ->
        errorHandler err = (401, ErrorField "Credenciais inválidas")).
Proof.
  intros He1 Hp1 He2 Hp2 Hnone Hsome Hwrong.
  unfold login. rewrite He1, Hp1, He2, Hp2. simpl.
  rewrite Hnone, Hsome, Hwrong.
  split; [done|]. split; [done|]. by intros err [= <-].
Qed.

Lemma login_failures_are_uniform_witness :
  login Sample.checks Sample.driver Sample.users Sample.primitives Sample.env 0
    {[ "email" := Str "nobody@mail.com"; "password" := Str "123456" ]}
    [Example.lucas]
  = login Sample.checks Sample.driver Sample.users Sample.primitives Sample.env 0
      {[ "email" := Str "lucas@mail.com"; "password" := Str "654321" ]}
      [Example.lucas].
Proof.
  apply (login_failures_are_uniform Sample.checks Sample.driver Sample.users
           Sample.primitives Sample.env 0
           {[ "email" := Str "nobody@mail.com"; "password" := Str "123456" ]}
           {[ "email" := Str "lucas@mail.com"; "password" := Str "654321" ]}
           Example.lucas [Example.lucas]);
    vm_compute; reflexivity.
Defined.

(** ** The sort document *)

Lemma get_put (o : JSObject.t) (k f : string) (v : Z) :
  JSObject.get (JSObject.put o k v) f
  = if String.eqb k f then Some v else JSObject.get o f.
Proof.
  induction o as [|[k' v'] o IH]; simpl.
  - by destruct (String.eqb k f).
  - destruct (String.eqb_spec k' k) as [->|Hne]; simpl.
    + by destruct (String.eqb k f).
    + destruct (String.eqb_spec k' f) as [->|Hne'].
      * by rewrite (proj2 (String.eqb_neq k f)) by congruence.
      * done.
Qed.

Lemma get_set (o : JSObject.t) (k f : string) (v : Z) :
  JSObject.get (JSObject.set o k v) f
  = if (negb (String.eqb k "__proto__") && String.eqb k f)%bool then Some v
    else JSObject.get o f.
Proof.
  unfold JSObject.set. destruct (String.eqb k "__proto__"); [done|].
  apply get_put.
Qed.

(** One token writes the entry the specification describes, unless its
    field is [__proto__]. *)
Lemma sortEntry_contribution (sort : JSObject.t) (tok : string) :
  sortEntry sort tok
  = JSObject.set sort (fst (contribution tok)) (snd (contribution tok)).
Proof.
  unfold sortEntry, contribution. destruct tok as [|c tok]; [done|]. simpl.
  destruct (Ascii.eqb_spec "-" c) as [<-|Hne]; [done|].
  destruct c as [[] [] [] [] [] [] [] []]; done.
Qed.

Lemma foldl_sortEntry (toks : list string) (sort : JSObject.t) (m : gmap string Z)
    (f : string) :
  f <> "__proto__" ->
  JSObject.get sort f = m !! f ->
  JSObject.get (foldl sortEntry sort toks) f
  = foldr (fun kv m => <[fst kv := snd kv]> m) m (reverse (contribution <$> toks)) !! f.
Proof.
  intros Hf. revert sort m. induction toks as [|tok toks IH]; intros sort m Hm;
    simpl; [done|].
  rewrite reverse_cons, foldr_app. simpl. apply IH.
  rewrite sortEntry_contribution, get_set.
  destruct (String.eqb_spec (fst (contribution tok)) f) as [Heq|Hne].
  - rewrite Heq, (proj2 (String.eqb_neq f "__proto__")) by done. simpl.
    by rewrite lookup_insert_eq.
  - rewrite andb_false_r. by rewrite lookup_insert_ne.
Qed.

(** [__proto__] is never a key of the sort document. *)
Lemma foldl_sortEntry_proto (toks : list string) (sort : JSObject.t) :
  JSObject.get (foldl sortEntry sort toks) "__proto__" = JSObject.get sort "__proto__".
Proof.
  revert sort. induction toks as [|tok toks IH]; intros sort; simpl; [done|].
  rewrite IH, sortEntry_contribution, get_set.
  by destruct (String.eqb (fst (contribution tok)) "__proto__").
Qed.

(** The direction a field ends with: that of its last token, if any. *)
Lemma describedSort_lookup (s fld : string) :
  describedSort s !! fld
  = snd <$> last (List.filter (fun kv => String.eqb (fst kv) fld)
                    (contribution <$> JS.split "," s)).
Proof.
  unfold describedSort.
  induction (contribution <$> JS.split "," s) as [|kv l IH] using rev_ind; [done|].
  rewrite reverse_app. simpl. rewrite List.filter_app. simpl.
  destruct (String.eqb_spec (fst kv) fld) as [<-|Hne].
  - rewrite last_snoc. destruct kv as [k d]. simpl. apply lookup_insert_eq.
  - rewrite app_nil_r. destruct kv as [k d]. simpl in *.
    by rewrite lookup_insert_ne.
Qed.

Lemma describedSort_foldr (s : string) :
  describedSort s
  = foldr (fun kv m => <[fst kv := snd kv]> m) ∅ (reverse (contribution <$> JS.split "," s)).
Proof.
  unfold describedSort, list_to_map.
  induction (reverse (contribution <$> JS.split "," s)) as [|[k d] l IH]; [done|].
  simpl. by rewrite IH.
Qed.

(** C9, as the code has it. Without a sort parameter, and with an empty
    one, the sort is by creation time descending; a non-empty parameter is
    split on commas, and the sort document maps, for each token whose field
    is not [__proto__], the field without its leading [-] to descending or
    the field to ascending (the last token of a field deciding): at every
    field other than [__proto__] the sort document is the one the tokens
    describe. *)
Theorem sort_document_of_parameter :
  buildSort None = [("createdAt", -1)]
  /\ buildSort (Some "") = [("createdAt", -1)]
  /\ forall (c : ascii) (s f : string),
       f <> "__proto__" ->
       JSObject.get (buildSort (Some (String c s))) f = describedSort (String c s) !! f.
Proof.
  split; [done|]. split; [done|]. intros c s f Hf.
  unfold buildSort. cbn [JS.truthy].
  rewrite describedSort_foldr. by apply foldl_sortEntry.
Qed.

(** C9 as the specification states it fails for the empty
    parameter: its single token is the empty field, ascending; the code
    sorts by creation time. *)
Lemma empty_sort_parameter_is_default :
  JS.split "," "" = [""]
  /\ describedSort "" = {[ "" := 1 ]}
  /\ buildSort (Some "") = [("createdAt", -1)]
  /\ JSObject.get (buildSort (Some "")) "" <> describedSort "" !! "".
Proof.
  repeat split; try (vm_compute; reflexivity).
  vm_compute. discriminate.
Qed.

(** A token whose field is [__proto__] leaves the sort document as it
    is. *)
Example proto_token_writes_nothing :
  buildSort (Some "__proto__") = []
  /\ buildSort (Some "price,-__proto__") = [("price", 1)]
  /\ buildSort (Some "price,-createdAt,-price") = [("price", -1); ("createdAt", -1)].
Proof. repeat split; vm_compute; reflexivity. Qed.

(** ** Pagination *)

(** A parameter passes its chain exactly when it is absent or converts to
    an integer below 10^21 within the bounds. *)
Lemma intParam_nil (p : string) (raw : option string) (min : Z) (max : option Z) :
  intParam p raw min max = [] <->
  raw = None
  \/ exists s n, raw = Some s /\ Validator.toInt s = Validator.Int n
                 /\ Z.abs n < 10 ^ 21
                 /\ min <= n /\ match max with Some m => n <= m | None => True end.
Proof.
  unfold intParam. destruct raw as [s|]; [|split; [by left | done]].
  rewrite check_nil. unfold Validator.isInt.
  destruct (Validator.toInt s) as [|n] eqn:Hto.
  - split; [done | intros [|(s' & n' & [= <-] & Hs & _)]; congruence].
  - rewrite !andb_true_iff, Z.leb_le, Z.ltb_lt. split.
    + intros [[Hbig Hmin] Hmax]. right. exists s, n.
      split; [done|]. split; [done|]. split; [done|]. split; [done|].
      destruct max; [by apply Z.leb_le | done].
    + intros [|(s' & n' & [= <-] & Hs & Hbig & Hmin & Hmax)]; [done|].
      assert (n' = n) as -> by congruence.
      split; [done|]. destruct max; [by apply Z.leb_le | done].
Qed.

Lemma intOr_absent (d : Z) : intOr None d = d.
Proof. done. Qed.

Lemma intOr_valid (s : string) (n d : Z) :
  Validator.toInt s = Validator.Int n -> 1 <= n -> intOr (Some s) d = n.
Proof.
  intros Hs Hn. unfold intOr. rewrite Hs.
  destruct (Z.eqb_spec n 0); [lia | done].
Qed.

Lemma digits_some (s : string) (acc : option Z) :
  Validator.allDigits s = true -> (is_Some acc \/ s <> "") ->
  is_Some (Validator.digits acc s).
Proof.
  revert acc. induction s as [|c s IH]; intros acc Hall Hsome; simpl in *.
  - by destruct Hsome.
  - destruct (Validator.digit c); [|done]. apply IH; [done|]. left. by eexists.
Qed.

Lemma parseInt_minus (r : string) :
  Validator.parseInt (String "-" r)
  = match Validator.digits None r with
    | Some n => Validator.Int (Validator.toDouble (- n))
    | None => Validator.NaN
    end.
Proof. reflexivity. Qed.

Lemma parseInt_plus (r : string) :
  Validator.parseInt (String "+" r)
  = match Validator.digits None r with
    | Some n => Validator.Int (Validator.toDouble n)
    | None => Validator.NaN
    end.
Proof. reflexivity. Qed.

Lemma parseInt_digit (c : ascii) (r : string) :
  is_Some (Validator.digit c) ->
  Validator.parseInt (String c r)
  = match Validator.digits None (String c r) with
    | Some n => Validator.Int (Validator.toDouble n)
    | None => Validator.NaN
    end.
Proof.
  destruct c as [[] [] [] [] [] [] [] []];
    (reflexivity || (intros [d Hd]; vm_compute in Hd; discriminate Hd)).
Qed.

(** An integer literal converts to an integer: on such parameters the
    chain decides by the bounds alone. *)
Lemma parseInt_literal (s : string) :
  Validator.isIntegerLiteral s = true -> exists n, Validator.parseInt s = Validator.Int n.
Proof.
  assert (forall t, JS.truthy t && Validator.allDigits t = true ->
                    is_Some (Validator.digits None t)) as Hdigits.
  { intros t [Ht Hall]%andb_true_iff. apply digits_some; [done|].
    right. by destruct t. }
  unfold Validator.isIntegerLiteral. destruct s as [|c r]; [done|].
  destruct (Ascii.eqb_spec c "-") as [->|Hminus].
  { intros [n Hn]%Hdigits. rewrite parseInt_minus, Hn. by eexists. }
  destruct (Ascii.eqb_spec c "+") as [->|Hplus].
  { intros [n Hn]%Hdigits. rewrite parseInt_plus, Hn. by eexists. }
  assert (JS.truthy (String c r) && Validator.allDigits (String c r) = true ->
          exists n, Validator.parseInt (String c r) = Validator.Int n) as Hgoal.
  { intros Hall. pose proof (Hdigits _ Hall) as [n Hn].
    apply andb_true_iff in Hall as [_ Hall]. cbn [Validator.allDigits] in Hall.
    destruct (Validator.digit c) as [d|] eqn:Hd; [|done].
    rewrite parseInt_digit by (rewrite Hd; by eexists).
    rewrite Hn. by eexists. }
  destruct c as [[] [] [] [] [] [] [] []]; try done; apply Hgoal.
Qed.

Lemma digit_range (c : ascii) (d : Z) :
  Validator.digit c = Some d -> 0 <= d <= 9.
Proof.
  unfold Validator.digit.
  destruct (Nat.leb 48 (nat_of_ascii c)) eqn:Hlo; [|done].
  destruct (Nat.leb (nat_of_ascii c) 57) eqn:Hhi; [|done].
  apply Nat.leb_le in Hlo, Hhi. simpl. intros [= <-]. lia.
Qed.

(** The value of a run of digits, read after [acc]. *)
Lemma digits_acc (s : string) (acc : Z) :
  Validator.allDigits s = true -> 0 <= acc ->
  exists n, Validator.digits (Some acc) s = Some n
            /\ acc * 10 ^ Z.of_nat (String.length s) <= n
               < (acc + 1) * 10 ^ Z.of_nat (String.length s).
Proof.
  revert acc. induction s as [|c s IH]; intros acc Hall Hacc.
  - exists acc. split; [done|]. simpl. lia.
  - cbn [Validator.allDigits Validator.digits] in *.
    destruct (Validator.digit c) as [d|] eqn:Hd; [|done].
    pose proof (digit_range _ _ Hd) as Hrange.
    destruct (IH (10 * acc + d) Hall ltac:(simpl; lia)) as (n & Hn & Hbound).
    exists n. split; [exact Hn|].
    cbn [String.length]. rewrite Nat2Z.inj_succ, Z.pow_succ_r by lia.
    assert (0 < 10 ^ Z.of_nat (String.length s)) by (apply Z.pow_pos_nonneg; lia).
    nia.
Qed.

Lemma toDouble_small (n : Z) : Z.abs n < 2 ^ 53 -> Validator.toDouble n = n.
Proof.
  intros Hn. unfold Validator.toDouble.
  by rewrite (proj2 (Z.ltb_lt _ _) Hn).
Qed.

(** A plain integer is the number its digits denote, for [parseInt] as
    for any reading of decimal digits, and that number is positive and
    exact as a double. *)
Lemma plain_integer_value (s : string) :
  Validator.isPlainInteger s = true ->
  exists n, Validator.digits None s = Some n
            /\ Validator.toInt s = Validator.Int n
            /\ 1 <= n < 10 ^ 13.
Proof.
  unfold Validator.isPlainInteger.
  intros [[[Hne Hall]%andb_true_iff Hzero%negb_true_iff]%andb_true_iff
            Hlen%Nat.leb_le]%andb_true_iff.
  destruct s as [|c r]; [done|].
  cbn [Validator.allDigits] in Hall.
  destruct (Validator.digit c) as [d|] eqn:Hd; [|done].
  pose proof (digit_range _ _ Hd) as Hrange.
  assert (d <> 0) as Hd0.
  { intros ->. revert Hzero Hd. clear.
    destruct c as [[] [] [] [] [] [] [] []]; vm_compute; congruence. }
  destruct (digits_acc r (10 * 0 + d) Hall ltac:(lia)) as (n & Hn & Hbound).
  assert (Validator.digits None (String c r) = Some n) as Hdigits.
  { cbn [Validator.digits]. by rewrite Hd. }
  cbn [String.length] in Hlen.
  assert (10 ^ Z.of_nat (String.length r) <= 10 ^ 12) as Hpow
    by (apply Z.pow_le_mono_r; lia).
  assert (0 < 10 ^ Z.of_nat (String.length r)) by (apply Z.pow_pos_nonneg; lia).
  assert (1 <= n < 10 ^ 13) as Hvalue.
  { change (10 ^ 13) with (10 * 10 ^ 12). nia. }
  exists n. split; [done|]. split; [|done].
  unfold Validator.toInt. rewrite parseInt_digit by (rewrite Hd; by eexists).
  rewrite Hdigits, toDouble_small; [done|].
  assert (10 ^ 13 < 2 ^ 53) by (vm_compute; reflexivity). lia.
Qed.

(** What the handler computes with, for a parameter that is absent or a
    plain integer: the default, or the number the digits denote. *)
Lemma intOr_plain (raw : option string) (d : Z) :
  plainParam raw = true ->
  match raw with
  | None => intOr raw d = d
  | Some s => Validator.digits None s = Some (intOr raw d) /\ 1 <= intOr raw d < 10 ^ 13
  end.
Proof.
  destruct raw as [s|]; [|done]. cbn [plainParam].
  intros (n & Hn & Hto & Hrange)%plain_integer_value.
  rewrite (intOr_valid s n) by (done || lia). done.
Qed.

(** The parts of C8 the code keeps, page and limit being read as [intOr]
    reads them. The defaults are page 1 and limit 10; a parameter whose
    converted value is not an integer within its bounds fails the request
    with 422; and for an accepted request the page is at least 1, the limit
    within 1..100, the query skips (page-1)*limit documents and at most
    limit items are returned. *)
Lemma listing_pagination (M : Mongoose.Driver) (q : Query) (store : Products) :
  (forall l, listProducts M q store = inr l ->
     (q_page q = None -> page l = 1) /\ (q_limit q = None -> limit l = 10))
  /\ (intParam "page" (q_page q) 1 None <> []
      \/ intParam "limit" (q_limit q) 1 (Some 100) <> [] ->
      failsWith (listProducts M q store) 422)
  /\ (forall l, listProducts M q store = inr l ->
        1 <= page l /\ 1 <= limit l <= 100
        /\ Mongoose.find M (buildFilter (q_search q)) (buildSort (q_sort q))
             ((page l - 1) * limit l) (limit l) store = inr (items l)
        /\ (Z.of_nat (length (items l)) <= limit l)).
Proof.
  split; [|split].
  - intros l (_ & _ & -> & -> & _)%listProducts_inr.
    split; by intros ->.
  - intros Hbad. unfold listProducts. destruct (_ ++ _)%list eqn:Herr; [|done].
    apply app_eq_nil in Herr as [? ?]. by destruct Hbad.
  - intros l (Herr & Hfind & -> & -> & _)%listProducts_inr.
    apply app_eq_nil in Herr as [Hpage Hlimit].
    assert (1 <= intOr (q_page q) 1) as Hp.
    { apply intParam_nil in Hpage as [->|(s & n & -> & Hs & _ & Hn & _)]; [done|].
      by rewrite (intOr_valid s n). }
    assert (1 <= intOr (q_limit q) 10 <= 100) as Hl.
    { apply intParam_nil in Hlimit as [->|(s & n & -> & Hs & _ & Hn & Hm)]; [done|].
      by rewrite (intOr_valid s n). }
    repeat split; try done; try lia.
    pose proof (find_length M _ _ _ _ _ _ Hfind). lia.
Qed.

(** The chains accept a parameter by its integer prefix. *)
Example integer_prefix_passes :
  intParam "page" (Some "2.5") 1 None = []
  /\ intParam "limit" (Some "50abc") 1 (Some 100) = []
  /\ intParam "page" (Some " 7") 1 None = []
  /\ intParam "limit" (Some "1e3") 1 (Some 100) = []
  /\ intParam "limit" (Some "abc") 1 (Some 100) <> []
  /\ intParam "limit" (Some "101") 1 (Some 100) <> []
  /\ intParam "page" (Some "0") 1 None <> []
  /\ intParam "page" (Some "") 1 None <> [].
Proof. repeat split; vm_compute; congruence. Qed.

(** C8, at the input where the code departs from it. "2.5" is not an
    integer, yet a listing with [page=2.5] is not answered 422: the
    parameter is converted before it is checked, its integer prefix passes
    the check, and the request is served. *)
Theorem non_integer_page_is_accepted (M : Mongoose.Driver) (store : Products) :
  Validator.isIntegerLiteral "2.5" = false
  /\ intParam "page" (Some "2.5") 1 None = []
  /\ exists l,
       listProducts M {| q_page := Some "2.5"; q_limit := None;
                         q_search := None; q_sort := None |} store = inr l.
Proof.
  split; [done|]. split; [vm_compute; reflexivity|].
  unfold listProducts. cbn [q_page q_limit q_sort q_search].
  assert (intParam "page" (Some "2.5") 1 None = []) as -> by (vm_compute; reflexivity).
  simpl. unfold Mongoose.find.
  assert (JSObject.entries [("createdAt", -1)] = [("createdAt", -1)]) as ->
    by (vm_compute; reflexivity).
  rewrite (Mongoose.sortByCreation M). by eexists.
Qed.

(** ** Tokens *)

Lemma append_assoc (a b c : string) : (a ++ b) ++ c = a ++ b ++ c.
Proof.
  induction a as [|x a IH]; [done|].
  change (String x ((a ++ b) ++ c) = String x (a ++ b ++ c)). by rewrite IH.
Qed.

Lemma append_cancel (a x y : string) : a ++ x = a ++ y -> x = y.
Proof. induction a as [|c a IH]; [done|]. intros [= H]. by apply IH. Qed.

Lemma truthy_append (a b : string) (c : ascii) : JS.truthy (a ++ String c b) = true.
Proof. by destruct a. Qed.

Lemma split_snoc_free (sep : ascii) (a x : string) :
  JS.free_of sep x = true ->
  JS.split sep (a ++ String sep x) = (JS.split sep a ++ [x])%list.
Proof.
  intros Hfree. induction a as [|c a IH]; simpl.
  - by rewrite Ascii.eqb_refl, split_free_single.
  - destruct (Ascii.eqb c sep); [by rewrite IH|].
    rewrite IH. pose proof (split_not_nil sep a).
    by destruct (JS.split sep a).
Qed.

Lemma split_single (sep : ascii) (a tok : string) :
  JS.split sep a = [tok] -> tok = a.
Proof. intros H. by rewrite <- (join_split sep a), H. Qed.

Section TokenFacts.
Context (P : Jwt.Primitives) (Hsound : Jwt.Sound P).

(** The three segments of a signed token. *)
Lemma split_token (p s : string) :
  JS.free_of "." p = true -> JS.free_of "." s = true ->
  JS.split "." (Jwt.headerSegment P ++ "." ++ p ++ "." ++ s)
  = [Jwt.headerSegment P; p; s].
Proof.
  intros Hp Hs.
  change (Jwt.headerSegment P ++ "." ++ p ++ "." ++ s) with
    (Jwt.headerSegment P ++ String "." (p ++ String "." s)).
  rewrite (split_app_free "." _ _ (Jwt.header_dot_free P Hsound)).
  rewrite (split_app_free "." _ _ Hp). by rewrite split_free_single.
Qed.

(** A token is accepted until its expiry and yields the payload that was
    signed ... *)
Lemma verify_sign (email secret subject : string) (expiresIn issued now : Z) :
  now < issued + expiresIn ->
  Jwt.verify P (Jwt.sign P email secret subject expiresIn issued) secret now
  = inr {| Jwt.sub := subject; Jwt.email := email; Jwt.iat := issued;
           Jwt.exp := issued + expiresIn |}.
Proof.
  intros Hfresh. unfold Jwt.sign, Jwt.verify.
  rewrite !append_assoc. rewrite split_token
    by (apply (Jwt.payload_dot_free P Hsound) || apply (Jwt.hmac_dot_free P Hsound)).
  rewrite (Jwt.decode_encode P Hsound), !String.eqb_refl. simpl.
  by destruct (Z.leb_spec (issued + expiresIn) now); [lia|].
Qed.

(** ... and is rejected from its expiry on. *)
Lemma verify_sign_expired (email secret subject : string) (expiresIn issued now : Z) :
  issued + expiresIn <= now ->
  Jwt.verify P (Jwt.sign P email secret subject expiresIn issued) secret now
  = inl Jwt.TokenExpiredError.
Proof.
  intros Hold. unfold Jwt.sign, Jwt.verify.
  rewrite !append_assoc. rewrite split_token
    by (apply (Jwt.payload_dot_free P Hsound) || apply (Jwt.hmac_dot_free P Hsound)).
  rewrite (Jwt.decode_encode P Hsound), !String.eqb_refl. simpl.
  by destruct (Z.leb_spec (issued + expiresIn) now); [|lia].
Qed.

(** A token with the payload of another under a kept signature is
    rejected ... *)
Lemma verify_altered_payload (secret p p' : string) (now : Z) :
  p' <> p ->
  exists e,
    Jwt.verify P (Jwt.headerSegment P ++ "." ++ p' ++ "."
                  ++ Jwt.hmac P secret (Jwt.headerSegment P ++ "." ++ p))
      secret now = inl e.
Proof.
  intros Hne. unfold Jwt.verify.
  change (Jwt.headerSegment P ++ "." ++ p' ++ "."
          ++ Jwt.hmac P secret (Jwt.headerSegment P ++ "." ++ p))
    with (Jwt.headerSegment P
          ++ String "." (p' ++ String "."
                           (Jwt.hmac P secret (Jwt.headerSegment P ++ "." ++ p)))).
  rewrite (split_app_free "." _ _ (Jwt.header_dot_free P Hsound)).
  rewrite (split_snoc_free "." _ _ (Jwt.hmac_dot_free P Hsound _ _)).
  pose proof (split_not_nil "." p') as Hnil.
  destruct (JS.split "." p') as [|p1 [|p2 rest]] eqn:Hsplit; [done| |].
  - apply split_single in Hsplit as ->. simpl.
    destruct (Jwt.decodePayload P p'); [|by eexists].
    rewrite String.eqb_refl. simpl.
    destruct (String.eqb_spec
                (Jwt.hmac P secret (Jwt.headerSegment P ++ "." ++ p))
                (Jwt.hmac P secret (Jwt.headerSegment P ++ "." ++ p')))
      as [Heq|_]; [|simpl; by eexists].
    apply (Jwt.hmac_injective P Hsound) in Heq.
    do 2 apply append_cancel in Heq. congruence.
  - simpl. destruct rest; simpl; by eexists.
Qed.

(** ... and so is a token with another signature under a kept payload. *)
Lemma verify_altered_signature (secret s' : string) (payload : Jwt.Payload) (now : Z) :
  s' <> Jwt.hmac P secret (Jwt.headerSegment P ++ "." ++ Jwt.encodePayload P payload) ->
  exists e,
    Jwt.verify P (Jwt.headerSegment P ++ "." ++ Jwt.encodePayload P payload ++ "." ++ s')
      secret now = inl e.
Proof.
  intros Hne. unfold Jwt.verify.
  change (Jwt.headerSegment P ++ "." ++ Jwt.encodePayload P payload ++ "." ++ s')
    with (Jwt.headerSegment P
          ++ String "." (Jwt.encodePayload P payload ++ String "." s')).
  rewrite (split_app_free "." _ _ (Jwt.header_dot_free P Hsound)).
  rewrite (split_app_free "." _ _ (Jwt.payload_dot_free P Hsound payload)).
  pose proof (split_not_nil "." s') as Hnil.
  destruct (JS.split "." s') as [|s1 [|s2 rest]] eqn:Hsplit; [done| |by eexists].
  apply split_single in Hsplit as ->.
  rewrite (Jwt.decode_encode P Hsound), String.eqb_refl. simpl.
  destruct (String.eqb_spec s'
              (Jwt.hmac P secret
                 (Jwt.headerSegment P ++ "." ++ Jwt.encodePayload P payload)));
    [done|].
  simpl. by eexists.
Qed.
End TokenFacts.

(** No accepted token is past its expiry. *)
Lemma verify_not_expired (P : Jwt.Primitives) (token secret : string) (now : Z)
    (payload : Jwt.Payload) :
  Jwt.verify P token secret now = inr payload -> now < Jwt.exp payload.
Proof.
  unfold Jwt.verify.
  destruct (JS.split "." token) as [|h [|p [|s [|]]]]; try done.
  destruct (Jwt.decodePayload P p) as [c|]; [|done].
  destruct (negb _); [done|]. destruct (negb _); [done|].
  destruct (Z.leb_spec (Jwt.exp c) now); [done|]. by intros [= <-].
Qed.

(** The guard on a token the library accepts, and on one it rejects. *)
Lemma auth_accepts (P : Jwt.Primitives) (env : Env) (now : Z) (token : string)
    (payload : Jwt.Payload) :
  JS.truthy token = true ->
  Jwt.verify P token (JWT_SECRET env) now = inr payload ->
  fst (auth P env now (Some ("Bearer " ++ token)))
  = inr {| id := Jwt.sub payload; email := Jwt.email payload |}.
Proof.
  intros Htruthy Hverify. unfold auth.
  change (JS.startsWith (default "" (Some ("Bearer " ++ token))) "Bearer ")
    with true.
  change (JS.slice 7 (default "" (Some ("Bearer " ++ token)))) with token.
  cbv iota. by rewrite Htruthy, Hverify.
Qed.

Lemma auth_rejects (P : Jwt.Primitives) (env : Env) (now : Z) (token : string)
    (e : Jwt.VerifyError) :
  Jwt.verify P token (JWT_SECRET env) now = inl e ->
  failsWith (fst (auth P env now (Some ("Bearer " ++ token)))) 401.
Proof.
  intros Hverify. unfold auth.
  change (JS.startsWith (default "" (Some ("Bearer " ++ token))) "Bearer ")
    with true.
  change (JS.slice 7 (default "" (Some ("Bearer " ++ token)))) with token.
  cbv iota. rewrite Hverify. by destruct (JS.truthy token).
Qed.

(** *** The sample primitives are sound *)

Lemma unbit_bit (b : bool) : Sample.unbit (Sample.bit b) = Some b.
Proof. by destruct b. Qed.

Lemma bit_neq (c : ascii) (b : bool) :
  Sample.unbit c = None -> Ascii.eqb (Sample.bit b) c = false.
Proof.
  intros Hc. destruct (Ascii.eqb_spec (Sample.bit b) c) as [<-|]; [|done].
  by rewrite unbit_bit in Hc.
Qed.

Lemma bitsOfString_free (c : ascii) (s : string) :
  Sample.unbit c = None -> JS.free_of c (Sample.bitsOfString s) = true.
Proof.
  intros Hc. induction s as [|[b0 b1 b2 b3 b4 b5 b6 b7] s IH]; [done|].
  simpl. by rewrite !(bit_neq c _ Hc).
Qed.

Lemma bitsOfPositive_free (c : ascii) (p : positive) :
  Sample.unbit c = None -> JS.free_of c (Sample.bitsOfPositive p) = true.
Proof.
  intros Hc.
  induction p as [p IH|p IH|]; cbn [JS.free_of Sample.bitsOfPositive]; [| |done].
  - by rewrite (bit_neq c true Hc : Ascii.eqb "1" c = false).
  - by rewrite (bit_neq c false Hc : Ascii.eqb "0" c = false).
Qed.

Lemma bitsOfZ_free (c : ascii) (z : Z) :
  Sample.unbit c = None ->
  Ascii.eqb "z" c = false -> Ascii.eqb "p" c = false -> Ascii.eqb "n" c = false ->
  JS.free_of c (Sample.bitsOfZ z) = true.
Proof.
  intros Hc Hz Hp Hn. destruct z as [|p|p]; cbn [JS.free_of Sample.bitsOfZ].
  - by rewrite Hz.
  - rewrite Hp. by apply bitsOfPositive_free.
  - rewrite Hn. by apply bitsOfPositive_free.
Qed.

Lemma stringOfBits_bitsOfString (s : string) :
  Sample.stringOfBits (Sample.bitsOfString s) = Some s.
Proof.
  induction s as [|[b0 b1 b2 b3 b4 b5 b6 b7] s IH]; [done|].
  simpl. by rewrite !unbit_bit, IH.
Qed.

Lemma positiveOfBits_bitsOfPositive (p : positive) :
  Sample.positiveOfBits (Sample.bitsOfPositive p) = Some p.
Proof. induction p as [p IH|p IH|]; simpl; [| |done]; by rewrite IH. Qed.

Lemma zOfBits_bitsOfZ (z : Z) : Sample.zOfBits (Sample.bitsOfZ z) = Some z.
Proof.
  destruct z as [|p|p]; [done| |]; simpl;
    by rewrite positiveOfBits_bitsOfPositive.
Qed.

Lemma encodePayload_free (c : ascii) (p : Jwt.Payload) :
  Sample.unbit c = None -> Ascii.eqb "," c = false ->
  Ascii.eqb "z" c = false -> Ascii.eqb "p" c = false -> Ascii.eqb "n" c = false ->
  JS.free_of c (Sample.encodePayload p) = true.
Proof.
  intros Hc Hcomma Hz Hp Hn. unfold Sample.encodePayload.
  change ("," ++ ?x) with (String "," x).
  repeat (rewrite free_of_app; cbn [JS.free_of]; rewrite ?Hcomma).
  by rewrite !bitsOfString_free, !bitsOfZ_free.
Qed.

Lemma decodePayload_encodePayload (p : Jwt.Payload) :
  Sample.decodePayload (Sample.encodePayload p) = Some p.
Proof.
  unfold Sample.decodePayload, Sample.encodePayload.
  change (Sample.bitsOfString (Jwt.sub p) ++ "," ++ Sample.bitsOfString (Jwt.email p)
          ++ "," ++ Sample.bitsOfZ (Jwt.iat p) ++ "," ++ Sample.bitsOfZ (Jwt.exp p))
    with (Sample.bitsOfString (Jwt.sub p)
          ++ String "," (Sample.bitsOfString (Jwt.email p)
          ++ String "," (Sample.bitsOfZ (Jwt.iat p)
          ++ String "," (Sample.bitsOfZ (Jwt.exp p))))).
  rewrite !split_app_free by (by apply bitsOfString_free || by apply bitsOfZ_free).
  rewrite split_free_single by (by apply bitsOfZ_free).
  rewrite !stringOfBits_bitsOfString, !zOfBits_bitsOfZ. by destruct p.
Qed.

Lemma sample_primitives_sound : Jwt.Sound Sample.primitives.
Proof.
  constructor.
  - by vm_compute.
  - intros p. by apply encodePayload_free.
  - intros k m. by apply bitsOfString_free.
  - apply decodePayload_encodePayload.
  - intros k m1 m2 H. simpl in H.
    assert (Some (k ++ m1) = Some (k ++ m2)) as [= Heq]
      by (by rewrite <- !stringOfBits_bitsOfString, H).
    by apply append_cancel in Heq.
Qed.

(** C6. A token signed for a user with the configured secret is accepted
    by verification with the same secret until its expiry, yields the
    subject and email it was signed for, and lets the request through the
    guard as that identity; from its expiry on it is rejected; a token
    whose payload segment or whose signature segment has been replaced is
    rejected; no accepted token is past its expiry; and the guard answers
    every rejected token with Unauthenticated (401). The encoding and the
    MAC of the token library are assumed sound: segments without dots, a
    codec that round-trips, a MAC without collisions. *)
Theorem token_round_trip
    (P : Jwt.Primitives) (env : Env) (issued now : Z) (userId userEmail : string) :
  Jwt.Sound P ->
  let token := issueToken P env issued userId userEmail in
  let expiry := issued + JWT_EXPIRES_IN env in
  let payload := {| Jwt.sub := userId; Jwt.email := userEmail;
                    Jwt.iat := issued; Jwt.exp := expiry |} in
  let h := Jwt.headerSegment P in
  let p := Jwt.encodePayload P payload in
  let s := Jwt.hmac P (JWT_SECRET env) (h ++ "." ++ p) in
  token = h ++ "." ++ p ++ "." ++ s
  /\ (now < expiry ->
      Jwt.verify P token (JWT_SECRET env) now = inr payload
      /\ fst (auth P env now (Some ("Bearer " ++ token)))
         = inr {| id := userId; email := userEmail |})
  /\ (expiry <= now ->
      Jwt.verify P token (JWT_SECRET env) now = inl Jwt.TokenExpiredError
      /\ failsWith (fst (auth P env now (Some ("Bearer " ++ token)))) 401)
  /\ (forall p' s', (p' <> p /\ s' = s) \/ (p' = p /\ s' <> s) ->
        (exists e, Jwt.verify P (h ++ "." ++ p' ++ "." ++ s') (JWT_SECRET env) now = inl e)
        /\ failsWith
             (fst (auth P env now (Some ("Bearer " ++ h ++ "." ++ p' ++ "." ++ s')))) 401)
  /\ (forall t accepted,
        Jwt.verify P t (JWT_SECRET env) now = inr accepted -> now < Jwt.exp accepted)
  /\ (forall t e,
        Jwt.verify P t (JWT_SECRET env) now = inl e ->
        failsWith (fst (auth P env now (Some ("Bearer " ++ t)))) 401).
Proof.
  intros Hsound token expiry payload h p s.
  assert (token = h ++ "." ++ p ++ "." ++ s) as Htoken
    by (unfold token, issueToken, Jwt.sign; by rewrite !append_assoc).
  split; [done|]. split; [|split; [|split; [|split]]].
  - intros Hfresh.
    pose proof (verify_sign P Hsound userEmail (JWT_SECRET env) userId
                  (JWT_EXPIRES_IN env) issued now Hfresh) as Hverify.
    split; [done|].
    apply (auth_accepts P env now token payload); [|done].
    rewrite Htoken. apply (truthy_append h).
  - intros Hold.
    pose proof (verify_sign_expired P Hsound userEmail (JWT_SECRET env) userId
                  (JWT_EXPIRES_IN env) issued now Hold) as Hverify.
    split; [done|]. by apply (auth_rejects P env now token Jwt.TokenExpiredError).
  - intros p' s' Haltered.
    assert (exists e, Jwt.verify P (h ++ "." ++ p' ++ "." ++ s') (JWT_SECRET env) now
                      = inl e) as [e He].
    { destruct Haltered as [[Hp ->] | [-> Hs]].
      - by apply verify_altered_payload.
      - by apply verify_altered_signature. }
    split; [by exists e|]. by apply (auth_rejects P env now _ e).
  - intros t accepted. apply verify_not_expired.
  - intros t e. apply auth_rejects.
Qed.

Lemma token_round_trip_witness :
  fst (auth Sample.primitives Sample.env 1000
         (Some ("Bearer "
                ++ issueToken Sample.primitives Sample.env 0
                     "64b7f0c2a1d3e4f5a6b7c8d9" "lucas@mail.com")))
  = inr {| id := "64b7f0c2a1d3e4f5a6b7c8d9"; email := "lucas@mail.com" |}.
Proof.
  pose proof (token_round_trip Sample.primitives Sample.env 0 1000
                "64b7f0c2a1d3e4f5a6b7c8d9" "lucas@mail.com"
                sample_primitives_sound) as Htrip.
  cbv zeta in Htrip. destruct Htrip as (_ & Hfresh & _).
  assert (1000 < 0 + JWT_EXPIRES_IN Sample.env) as Hlt by (vm_compute; reflexivity).
  exact (proj2 (Hfresh Hlt)).
Defined.

(** * Further properties of the routes *)

(** ** The collection under create, update and delete *)

Lemma save_outcome (_id : string) (d : option Product.Doc) (store : Products) :
  (exists e, Mongoose.save _id d store = (inl e, store))
  \/ (exists d', d = Some d' /\ Product.validates d' = true
                 /\ Mongoose.save _id d store = (inr d', <[_id := d']> store)).
Proof.
  unfold Mongoose.save. destruct d as [d'|]; [|left; by eexists].
  destruct (Product.validates d') eqn:Hv; [right; by exists d' | left; by eexists].
Qed.

Lemma create_outcome (M : Mongoose.Driver) (vn vd vp vs vo : JSValue) (store : Products) :
  (exists e, Mongoose.create M vn vd vp vs vo store = (inl e, store))
  \/ (exists n d p s o,
        Mongoose.castString M vn = Some n /\ Mongoose.castString M vd = Some d
        /\ Mongoose.castNumber M vp = Some p /\ Mongoose.castNumber M vs = Some s
        /\ Mongoose.castObjectId M vo = Some o
        /\ let doc := {| Product.name := Mongoose.trim M n; Product.description := d;
                         Product.price := p; Product.stock := s;
                         Product.active := true; Product.owner := o |} in
           Product.validates doc = true
           /\ Mongoose.create M vn vd vp vs vo store
              = (inr (Mongoose.newObjectId M store, doc),
                 <[Mongoose.newObjectId M store := doc]> store)).
Proof.
  unfold Mongoose.create.
  destruct (Mongoose.castString M vn) as [n|] eqn:Hn;
    [|destruct vn, vp, vo; left; by eexists].
  destruct (Mongoose.castString M vd) as [d|] eqn:Hd;
    [|destruct vn, vp, vo; left; by eexists].
  destruct (Mongoose.castNumber M vp) as [p|] eqn:Hp;
    [|destruct vn, vp, vo; left; by eexists].
  destruct (Mongoose.castNumber M vs) as [s|] eqn:Hs;
    [|destruct vn, vp, vo; left; by eexists].
  destruct (Mongoose.castObjectId M vo) as [o|] eqn:Ho;
    [|destruct vn, vp, vo; left; by eexists].
  destruct (Product.validates _) eqn:Hv;
    [|destruct vn, vp, vo; left; by eexists].
  destruct vn, vp, vo; try (left; by eexists);
    right; exists n, d, p, s, o; by repeat split.
Qed.

(** What an update or a delete finds under the id, past the validators:
    the request stops at the lookup, at the owner, or goes on to [save]. *)
Lemma access_cases (user : Identity) (_id : string) (store : Products) :
  store !! _id = None
  \/ (exists p, store !! _id = Some p /\ Product.active p = false)
  \/ (exists p, store !! _id = Some p /\ Product.active p = true
                /\ Product.owner p <> id user)
  \/ (exists p, store !! _id = Some p /\ Product.active p = true
                /\ Product.owner p = id user).
Proof.
  destruct (store !! _id) as [p|] eqn:Hp; [|by left].
  destruct (Product.active p) eqn:Hactive; [|right; left; by exists p].
  destruct (String.eqb_spec (Product.owner p) (id user)).
  - do 3 right. by exists p.
  - do 2 right. left. by exists p.
Qed.

Section CollectionFacts.
Context (V : Validator.Checks) (M : Mongoose.Driver).

(** The shape of an update: an error that leaves the collection as it
    is, or the assigned document saved under the id of an active product
    of the actor. *)
Lemma patch_outcome (user : Identity) (_id : string) (body : Body) (store : Products) :
  (exists e, patchProduct V M user _id body store = (inl e, store))
  \/ (exists p d,
        patchErrors V _id body = [] /\ store !! _id = Some p
        /\ Product.active p = true /\ Product.owner p = id user
        /\ Mongoose.assign M p body = Some d /\ Product.validates d = true
        /\ patchProduct V M user _id body store = (inr d, <[_id := d]> store)).
Proof.
  unfold patchProduct, Mongoose.findById.
  destruct (patchErrors V _id body) eqn:Herr; [|left; by eexists].
  destruct (access_cases user _id store)
    as [Hm|[(p & Hp & Ha)|[(p & Hp & Ha & Ho)|(p & Hp & Ha & Ho)]]].
  - rewrite Hm. left; by eexists.
  - rewrite Hp, Ha. left; by eexists.
  - rewrite Hp, Ha. apply String.eqb_neq in Ho. rewrite Ho. left; by eexists.
  - rewrite Hp, Ha, Ho, String.eqb_refl. simpl.
    destruct (save_outcome _id (Mongoose.assign M p body) store)
      as [[e He]|(d & Hd & Hv & Hs)].
    + left. by exists e.
    + right. exists p, d. by rewrite Hs.
Qed.

Lemma delete_outcome (user : Identity) (_id : string) (store : Products) :
  (exists e, deleteProduct V user _id store = (inl e, store))
  \/ (exists p,
        Validator.isMongoId V _id = true /\ store !! _id = Some p
        /\ Product.active p = true /\ Product.owner p = id user
        /\ Product.validates p = true
        /\ deleteProduct V user _id store
           = (inr tt, <[_id := Product.setActive false p]> store)).
Proof.
  unfold deleteProduct, Mongoose.findById.
  destruct (Validator.isMongoId V _id) eqn:Hid; simpl; [|left; by eexists].
  destruct (access_cases user _id store)
    as [Hm|[(p & Hp & Ha)|[(p & Hp & Ha & Ho)|(p & Hp & Ha & Ho)]]].
  - rewrite Hm. left; by eexists.
  - rewrite Hp, Ha. left; by eexists.
  - rewrite Hp, Ha. apply String.eqb_neq in Ho. rewrite Ho. left; by eexists.
  - rewrite Hp, Ha, Ho, String.eqb_refl. simpl. unfold Mongoose.save.
    rewrite validates_setActive.
    destruct (Product.validates p) eqn:Hv; [right; by exists p | left; by eexists].
Qed.

Lemma createProduct_outcome (user : Identity) (body : Body) (store : Products) :
  (exists e, createProduct V M user body store = (inl e, store))
  \/ (exists d,
        Product.validates d = true /\ Product.active d = true
        /\ Mongoose.castObjectId M (Str (id user)) = Some (Product.owner d)
        /\ Mongoose.castString M (orElse (field body "description") (Str ""))
           = Some (Product.description d)
        /\ Mongoose.castNumber M (orElse (field body "stock") (Number 0))
           = Some (Product.stock d)
        /\ createProduct V M user body store
           = (inr (Mongoose.newObjectId M store, d),
              <[Mongoose.newObjectId M store := d]> store)).
Proof.
  unfold createProduct. destruct (_ ++ _)%list; [|left; by eexists].
  destruct (create_outcome M (field body "name")
              (orElse (field body "description") (Str "")) (field body "price")
              (orElse (field body "stock") (Number 0)) (Str (id user)) store)
    as [[e He]|(n & d & p & s & o & Hn & Hd & Hp & Hs & Ho & Hv & Hc)].
  - left. by exists e.
  - right. eexists. rewrite Hc. by repeat split.
Qed.
End CollectionFacts.

(** X1. A product request that fails leaves the collection exactly as it
    was: create, update and delete store nothing on any error path
    (validation, lookup, ownership, cast or schema failure). *)
Theorem failed_product_requests_change_nothing
    (V : Validator.Checks) (M : Mongoose.Driver) (user : Identity) (_id : string)
    (body : Body) (store : Products) :
  (forall e store', createProduct V M user body store = (inl e, store') -> store' = store)
  /\ (forall e store', patchProduct V M user _id body store = (inl e, store') ->
        store' = store)
  /\ (forall e store', deleteProduct V user _id store = (inl e, store') -> store' = store).
Proof.
  split; [|split]; intros e store' H.
  - destruct (createProduct_outcome V M user body store) as [[e' He]|(d & _ & _ & _ & _ & _ & Hc)];
      congruence.
  - destruct (patch_outcome V M user _id body store)
      as [[e' He]|(p & d & _ & _ & _ & _ & _ & _ & Hc)]; congruence.
  - destruct (delete_outcome V user _id store) as [[e' He]|(p & _ & _ & _ & _ & _ & Hc)];
      congruence.
Qed.

(** X2. The schema is an invariant of the collection: when every stored
    document passes the validators of the Product schema (name present,
    price and stock not negative), so does every document stored after a
    create, an update or a delete, whatever the request. *)
Theorem product_routes_keep_schema
    (V : Validator.Checks) (M : Mongoose.Driver) (user : Identity) (_id : string)
    (body : Body) (store : Products) :
  map_Forall (fun _ d => Product.validates d = true) store ->
  map_Forall (fun _ d => Product.validates d = true)
    (snd (createProduct V M user body store))
  /\ map_Forall (fun _ d => Product.validates d = true)
       (snd (patchProduct V M user _id body store))
  /\ map_Forall (fun _ d => Product.validates d = true)
       (snd (deleteProduct V user _id store)).
Proof.
  intros Hinv. split; [|split].
  - destruct (createProduct_outcome V M user body store)
      as [[e ->]|(d & Hv & _ & _ & _ & _ & ->)]; simpl; [done|].
    by apply map_Forall_insert_2.
  - destruct (patch_outcome V M user _id body store)
      as [[e ->]|(p & d & _ & _ & _ & _ & _ & Hv & ->)]; simpl; [done|].
    by apply map_Forall_insert_2.
  - destruct (delete_outcome V user _id store)
      as [[e ->]|(p & _ & _ & _ & _ & Hv & ->)]; simpl; [done|].
    apply map_Forall_insert_2; [|done]. by rewrite validates_setActive.
Qed.

Lemma product_routes_keep_schema_witness :
  map_Forall (fun _ d => Product.validates d = true)
    (snd (createProduct Sample.checks Sample.driver Example.bob Scenario.mouseBody
            Example.shelf)).
Proof.
  assert (map_Forall (fun _ d => Product.validates d = true) Example.shelf) as Hshelf.
  { apply map_Forall_singleton. vm_compute. reflexivity. }
  exact (proj1 (product_routes_keep_schema Sample.checks Sample.driver Example.bob
                  Example.keyboardId Scenario.mouseBody Example.shelf Hshelf)).
Defined.


(** ** Partial update *)

Section FrameFacts.
Context (M : Mongoose.Driver).

(** One assignment leaves every path but its own as it is. *)
Lemma set_frame (d d' : Product.Doc) (path : string) (v : JSValue) :
  Mongoose.set M d path v = Some d' ->
  (path <> "name" -> Product.name d' = Product.name d)
  /\ (path <> "description" -> Product.description d' = Product.description d)
  /\ (path <> "price" -> Product.price d' = Product.price d)
  /\ (path <> "stock" -> Product.stock d' = Product.stock d)
  /\ (path <> "active" -> Product.active d' = Product.active d)
  /\ (path <> "owner" -> Product.owner d' = Product.owner d).
Proof.
  unfold Mongoose.set.
  repeat match goal with
    | |- context [String.eqb path ?k] =>
        destruct (String.eqb_spec path k) as [->|?];
        [ simpl; intros; simplify_option_eq; repeat split; by intros |]
    end.
  by intros [= <-].
Qed.

(** [Object.assign] leaves a path without key in the body as it is. *)
Lemma assign_frame (d d' : Product.Doc) (body : Body) :
  Mongoose.assign M d body = Some d' ->
  (body !! "name" = None -> Product.name d' = Product.name d)
  /\ (body !! "description" = None -> Product.description d' = Product.description d)
  /\ (body !! "price" = None -> Product.price d' = Product.price d)
  /\ (body !! "stock" = None -> Product.stock d' = Product.stock d)
  /\ (body !! "active" = None -> Product.active d' = Product.active d)
  /\ (body !! "owner" = None -> Product.owner d' = Product.owner d).
Proof.
  unfold Mongoose.assign. revert d'.
  apply (map_fold_weak_ind
           (fun r (m : Body) => forall d', r = Some d' ->
              (m !! "name" = None -> Product.name d' = Product.name d)
              /\ (m !! "description" = None ->
                  Product.description d' = Product.description d)
              /\ (m !! "price" = None -> Product.price d' = Product.price d)
              /\ (m !! "stock" = None -> Product.stock d' = Product.stock d)
              /\ (m !! "active" = None -> Product.active d' = Product.active d)
              /\ (m !! "owner" = None -> Product.owner d' = Product.owner d))).
  - by intros d' [= <-].
  - intros path v m r Hfresh IH d' Hset.
    destruct r as [d0|]; [|done]. simpl in Hset.
    destruct (IH d0 eq_refl) as (I1 & I2 & I3 & I4 & I5 & I6).
    destruct (set_frame _ _ _ _ Hset) as (S1 & S2 & S3 & S4 & S5 & S6).
    repeat split; intros Hk; apply lookup_insert_None in Hk as [Hk Hne];
      [ rewrite S1, I1 | rewrite S2, I2 | rewrite S3, I3
      | rewrite S4, I4 | rewrite S5, I5 | rewrite S6, I6 ]; done.
Qed.
End FrameFacts.

(** X4. A partial update touches only what the body names. For a body
    whose keys are all among name, description, price, stock, active and
    owner, and a product stored under the id: in the stored result of an
    accepted update, each of these paths whose key is absent from the body
    has the value it had, and every other document of the collection is
    untouched. *)
Theorem update_leaves_omitted_paths
    (V : Validator.Checks) (M : Mongoose.Driver) (user : Identity) (_id : string)
    (body : Body) (store store' : Products) (p d : Product.Doc) :
  (forall k, is_Some (body !! k) -> In k Product.paths) ->
  store !! _id = Some p ->
  patchProduct V M user _id body store = (inr d, store') ->
  store' = <[_id := d]> store
  /\ (forall k, k <> _id -> store' !! k = store !! k)
  /\ (body !! "name" = None -> Product.name d = Product.name p)
  /\ (body !! "description" = None -> Product.description d = Product.description p)
  /\ (body !! "price" = None -> Product.price d = Product.price p)
  /\ (body !! "stock" = None -> Product.stock d = Product.stock p)
  /\ (body !! "active" = None -> Product.active d = Product.active p)
  /\ (body !! "owner" = None -> Product.owner d = Product.owner p).
Proof.
  intros _ Hp Hpatch.
  destruct (patch_outcome V M user _id body store)
    as [[e He]|(p' & d' & _ & Hp' & _ & _ & Hassign & _ & Hok)]; [congruence|].
  rewrite Hok in Hpatch. injection Hpatch as <- <-.
  assert (p' = p) as -> by congruence.
  split; [done|]. split; [intros k Hk; by rewrite lookup_insert_ne|].
  exact (assign_frame M _ _ _ Hassign).
Qed.

Lemma update_leaves_omitted_paths_witness :
  Product.name (Product.setPrice 150 Example.keyboard) = Product.name Example.keyboard
  /\ Product.owner (Product.setPrice 150 Example.keyboard)
     = Product.owner Example.keyboard.
Proof.
  assert (Example.shelf !! Example.keyboardId = Some Example.keyboard) as Hp
    by (vm_compute; reflexivity).
  assert (patchProduct Sample.checks Sample.driver Example.alice Example.keyboardId
            {[ "price" := Number 150 ]} Example.shelf
          = (inr (Product.setPrice 150 Example.keyboard),
             <[Example.keyboardId := Product.setPrice 150 Example.keyboard]>
               Example.shelf)) as Hpatch by (vm_compute; reflexivity).
  assert (forall k, is_Some (({[ "price" := Number 150 ]} : Body) !! k) ->
                    In k Product.paths) as Hkeys.
  { intros k [v Hk]. apply lookup_singleton_Some in Hk as [<- _].
    vm_compute. tauto. }
  destruct (update_leaves_omitted_paths Sample.checks Sample.driver Example.alice
              Example.keyboardId {[ "price" := Number 150 ]} Example.shelf _
              Example.keyboard _ Hkeys Hp Hpatch)
    as (_ & _ & Hname & _ & _ & _ & _ & Howner).
  assert (({[ "price" := Number 150 ]} : Body) !! "name" = None) as Hn
    by (vm_compute; reflexivity).
  assert (({[ "price" := Number 150 ]} : Body) !! "owner" = None) as Ho
    by (vm_compute; reflexivity).
  exact (conj (Hname Hn) (Howner Ho)).
Defined.

(** X5. An update whose body is [{ active: false }] is a soft delete: for
    a request that passes the validators of the update route and a driver
    that casts [false] to itself, it leaves the collection exactly as the
    delete route does, and it fails exactly when delete fails, with the
    same error. *)
Theorem deactivating_update_is_delete
    (V : Validator.Checks) (M : Mongoose.Driver) (user : Identity) (_id : string)
    (store : Products) :
  patchErrors V _id {[ "active" := Bool false ]} = [] ->
  Mongoose.castBoolean M (Bool false) = Some false ->
  snd (patchProduct V M user _id {[ "active" := Bool false ]} store)
  = snd (deleteProduct V user _id store)
  /\ (forall e, fst (patchProduct V M user _id {[ "active" := Bool false ]} store) = inl e
                <-> fst (deleteProduct V user _id store) = inl e).
Proof.
  intros Hvalid Hcast. pose proof (patchErrors_id _ _ _ Hvalid) as Hid.
  unfold patchProduct, deleteProduct, Mongoose.findById.
  rewrite Hvalid, (proj2 (check_nil _ _ _) Hid).
  assert (forall (m : string) (c : Z) (s : Products),
             snd (throw (A:=Product.Doc) m c, s) = snd (throw (A:=unit) m c, s)
             /\ (forall e, fst (throw (A:=Product.Doc) m c, s) = inl e
                           <-> fst (throw (A:=unit) m c, s) = inl e)) as Hsame.
  { intros m c s. split; [done|]. intros e. split; intros [= <-]; done. }
  destruct (store !! _id) as [p|]; [|apply Hsame].
  destruct (Product.active p); [|apply Hsame]. simpl.
  destruct (String.eqb (Product.owner p) (id user)); [|apply Hsame]. simpl.
  rewrite assign_singleton. unfold Mongoose.set. simpl. rewrite Hcast. simpl.
  unfold Mongoose.save.
  destruct (Product.validates (Product.setActive false p)); simpl.
  - split; [done|]. intros e. split; intros He; discriminate He.
  - split; [done|]. intros e. split; intros [= <-]; done.
Qed.

Lemma deactivating_update_is_delete_witness :
  snd (patchProduct Sample.checks Sample.driver Example.alice Example.keyboardId
         {[ "active" := Bool false ]} Example.shelf)
  = snd (deleteProduct Sample.checks Example.alice Example.keyboardId Example.shelf).
Proof.
  assert (patchErrors Sample.checks Example.keyboardId {[ "active" := Bool false ]} = [])
    as Hvalid by (vm_compute; reflexivity).
  exact (proj1 (deactivating_update_is_delete Sample.checks Sample.driver
                  Example.alice Example.keyboardId Example.shelf Hvalid eq_refl)).
Defined.

(** X6. A deleted product is gone from every route: after a delete that
    succeeded, read-by-id of the same id fails with NotFound, so does any
    valid update of it by any actor, and no listing returns an item under
    that id (the driver ordering a result without changing its members). *)
Theorem deleted_product_is_gone
    (V : Validator.Checks) (M : Mongoose.Driver) (user : Identity) (_id : string)
    (store store' : Products) :
  (forall srt docs, Mongoose.sortDocs M srt docs ≡ₚ docs) ->
  deleteProduct V user _id store = (inr tt, store') ->
  getProduct V _id store' = throw "Produto não encontrado" 404
  /\ (forall actor body, patchErrors V _id body = [] ->
        patchProduct V M actor _id body store'
        = (throw "Produto não encontrado" 404, store'))
  /\ (forall q l, listProducts M q store' = inr l ->
        Forall (fun kv => fst kv <> _id) (items l)).
Proof.
  intros Hsort Hdelete.
  destruct (delete_outcome V user _id store)
    as [[e He]|(p & Hid & Hp & _ & _ & _ & Hok)]; [congruence|].
  rewrite Hok in Hdelete. injection Hdelete as <-.
  assert ((<[_id := Product.setActive false p]> store) !! _id
          = Some (Product.setActive false p)) as Hgone by apply lookup_insert_eq.
  split; [|split].
  - unfold getProduct, Mongoose.findById.
    by rewrite (proj2 (check_nil _ _ _) Hid), Hgone.
  - intros actor body Hvalid. unfold patchProduct, Mongoose.findById.
    by rewrite Hvalid, Hgone.
  - intros q l (_ & Hfind & _)%listProducts_inr.
    apply Forall_forall. intros [k d] Hin Hk. simpl in Hk. subst k.
    apply (find_selected M _ _ _ _ _ _ _ Hsort Hfind) in Hin.
    apply selected_spec in Hin as [Hstored Hmatch]. simpl in *.
    apply (matches_active M (buildFilter (q_search q))) in Hmatch; [|done].
    rewrite Hgone in Hstored. injection Hstored as <-. done.
Qed.

Lemma deleted_product_is_gone_witness :
  getProduct Sample.checks Example.keyboardId Example.attic
  = throw "Produto não encontrado" 404.
Proof.
  assert (forall (srt : list (string * Z)) (docs : list (string * Product.Doc)),
             Mongoose.sortDocs Sample.driver srt docs ≡ₚ docs) as Hsort by done.
  assert (deleteProduct Sample.checks Example.alice Example.keyboardId Example.shelf
          = (inr tt, Example.attic)) as Hdelete by (vm_compute; reflexivity).
  exact (proj1 (deleted_product_is_gone Sample.checks Sample.driver Example.alice
                  Example.keyboardId Example.shelf Example.attic Hsort Hdelete)).
Defined.

(** X7. A created product is stored and readable: an accepted create
    stores the document it answers under the new id, active, owned by the
    caller, valid for the schema, with the description '' and the stock 0
    cast in when the body has no such key; when the new id is well formed,
    read-by-id of it answers that document. *)
Theorem created_product_is_stored
    (V : Validator.Checks) (M : Mongoose.Driver) (user : Identity) (body : Body)
    (store store' : Products) (k : string) (d : Product.Doc) :
  createProduct V M user body store = (inr (k, d), store') ->
  k = Mongoose.newObjectId M store
  /\ store' = <[k := d]> store
  /\ Product.active d = true
  /\ Product.validates d = true
  /\ Mongoose.castObjectId M (Str (id user)) = Some (Product.owner d)
  /\ (body !! "description" = None ->
      Mongoose.castString M (Str "") = Some (Product.description d))
  /\ (body !! "stock" = None ->
      Mongoose.castNumber M (Number 0) = Some (Product.stock d))
  /\ (Validator.isMongoId V k = true -> getProduct V k store' = inr d).
Proof.
  intros Hcreate.
  destruct (createProduct_outcome V M user body store)
    as [[e He]|(d' & Hv & Ha & Ho & Hd & Hs & Hok)]; [congruence|].
  rewrite Hok in Hcreate. injection Hcreate as <- <- <-.
  repeat split; try done.
  - intros Hk. unfold field in Hd. by rewrite Hk in Hd.
  - intros Hk. unfold field in Hs. by rewrite Hk in Hs.
  - intros Hid. unfold getProduct, Mongoose.findById.
    by rewrite (proj2 (check_nil _ _ _) Hid), lookup_insert_eq, Ha.
Qed.

Lemma created_product_is_stored_witness :
  getProduct Sample.checks (Mongoose.newObjectId Sample.driver Example.shelf)
    (<[Mongoose.newObjectId Sample.driver Example.shelf := Scenario.mouse]> Example.shelf)
  = inr Scenario.mouse.
Proof.
  assert (createProduct Sample.checks Sample.driver Example.bob Scenario.mouseBody
            Example.shelf
          = (inr (Mongoose.newObjectId Sample.driver Example.shelf, Scenario.mouse),
             <[Mongoose.newObjectId Sample.driver Example.shelf := Scenario.mouse]>
               Example.shelf)) as Hcreate by (vm_compute; reflexivity).
  destruct (created_product_is_stored Sample.checks Sample.driver Example.bob
              Scenario.mouseBody Example.shelf _ _ _ Hcreate)
    as (_ & _ & _ & _ & _ & _ & _ & Hread).
  assert (Validator.isMongoId Sample.checks
            (Mongoose.newObjectId Sample.driver Example.shelf) = true) as Hid
    by (vm_compute; reflexivity).
  exact (Hread Hid).
Defined.

(** X8. Create reads four keys of the body and nothing else: two bodies
    that agree on name, description, price and stock are answered alike
    and leave the same collection, whatever other keys (owner, active,
    _id) either carries. *)
Theorem create_reads_four_keys
    (V : Validator.Checks) (M : Mongoose.Driver) (user : Identity)
    (body body' : Body) (store : Products) :
  body !! "name" = body' !! "name" ->
  body !! "description" = body' !! "description" ->
  body !! "price" = body' !! "price" ->
  body !! "stock" = body' !! "stock" ->
  createProduct V M user body store = createProduct V M user body' store.
Proof.
  intros Hn Hd Hp Hs. unfold createProduct, field. by rewrite Hn, Hd, Hp, Hs.
Qed.

Lemma create_reads_four_keys_witness :
  createProduct Sample.checks Sample.driver Example.bob
    (<["owner" := Str (id Example.alice)]> (<["active" := Bool false]> Scenario.mouseBody))
    Example.shelf
  = createProduct Sample.checks Sample.driver Example.bob Scenario.mouseBody Example.shelf.
Proof.
  apply create_reads_four_keys; vm_compute; reflexivity.
Defined.

(** ** Listing *)

Lemma listing_shape (M : Mongoose.Driver) (q : Query) (store : Products) (l : Listing) :
  listProducts M q store = inr l ->
  1 <= page l /\ 1 <= limit l <= 100
  /\ total l = Mongoose.countDocuments M (buildFilter (q_search q)) store
  /\ Mongoose.find M (buildFilter (q_search q)) (buildSort (q_sort q))
       ((page l - 1) * limit l) (limit l) store = inr (items l).
Proof.
  intros Hl.
  destruct (listing_pagination M q store) as (_ & _ & Hok).
  destruct (Hok l Hl) as (Hp & Hlim & Hitems & _).
  repeat split; try done; try lia.
  by apply listProducts_inr in Hl as (_ & _ & _ & _ & ?).
Qed.

(** X9. Page [k] of a listing is the [k]-th block of the ordered
    selection. For a request whose page and limit are each absent or a
    plain integer (digits only, no leading zero): the page and limit of an
    accepted listing are the numbers these digits denote, and item [i] of
    it is the document at position (page-1)*limit + i of the active,
    matching documents in sort order, so consecutive pages neither skip nor
    repeat a position. *)
Theorem listing_page_positions
    (M : Mongoose.Driver) (q : Query) (store : Products) (l : Listing) (i : nat) :
  plainParam (q_page q) = true ->
  plainParam (q_limit q) = true ->
  listProducts M q store = inr l ->
  Z.of_nat i < limit l ->
  (forall s, q_page q = Some s -> Validator.digits None s = Some (page l))
  /\ (forall s, q_limit q = Some s -> Validator.digits None s = Some (limit l))
  /\ items l !! i
     = Mongoose.sortDocs M (JSObject.entries (buildSort (q_sort q)))
         (Mongoose.selected M (buildFilter (q_search q)) store)
       !! (Z.to_nat ((page l - 1) * limit l) + i)%nat.
Proof.
  intros Hpage Hlimit Hl Hi.
  destruct (listing_shape M q store l Hl) as (_ & _ & _ & Hfind).
  pose proof Hl as (_ & _ & Hp & Hlim & _)%listProducts_inr.
  split; [|split].
  - intros s Hs. pose proof (intOr_plain _ 1 Hpage) as Hvalue.
    rewrite Hs in Hvalue. rewrite Hp, Hs. tauto.
  - intros s Hs. pose proof (intOr_plain _ 10 Hlimit) as Hvalue.
    rewrite Hs in Hvalue. rewrite Hlim, Hs. tauto.
  - unfold Mongoose.find in Hfind.
    destruct (Mongoose.sortRejected M _); [done|]. injection Hfind as <-.
    rewrite lookup_take_lt by lia. apply lookup_drop.
Qed.

Lemma listing_page_positions_witness :
  exists l,
    listProducts Sample.driver (Scenario.pageQuery "2" "1") Scenario.stock2 = inr l
    /\ items l !! 0%nat
       = Mongoose.sortDocs Sample.driver (JSObject.entries (buildSort None))
           (Mongoose.selected Sample.driver (buildFilter None) Scenario.stock2)
         !! (Z.to_nat ((page l - 1) * limit l) + 0)%nat.
Proof.
  destruct (listProducts Sample.driver (Scenario.pageQuery "2" "1") Scenario.stock2)
    as [e|l] eqn:Hl; [vm_compute in Hl; discriminate Hl|].
  exists l. split; [reflexivity|].
  assert (limit l = 1) as Hlimit by (vm_compute in Hl; by injection Hl as <-).
  assert (Z.of_nat 0 < limit l) as Hi by (rewrite Hlimit; reflexivity).
  exact (proj2 (proj2 (listing_page_positions Sample.driver
                         (Scenario.pageQuery "2" "1") Scenario.stock2 l 0
                         eq_refl eq_refl Hl Hi))).
Defined.

(** X10. The size of a page is exact. For a request whose page and limit
    are each absent or a plain integer: an accepted listing returns
    min(limit, max(0, total - (page-1)*limit)) items, so the last page is
    short and a page past the end is empty (the driver ordering a result
    without changing its members). *)
Theorem listing_page_size
    (M : Mongoose.Driver) (q : Query) (store : Products) (l : Listing) :
  (forall srt docs, Mongoose.sortDocs M srt docs ≡ₚ docs) ->
  plainParam (q_page q) = true ->
  plainParam (q_limit q) = true ->
  listProducts M q store = inr l ->
  Z.of_nat (length (items l))
  = Z.min (limit l) (Z.max 0 (total l - (page l - 1) * limit l)).
Proof.
  intros Hsort _ _ Hl.
  destruct (listing_shape M q store l Hl) as (Hp & Hlim & -> & Hfind).
  unfold Mongoose.find in Hfind.
  destruct (Mongoose.sortRejected M _); [done|]. injection Hfind as <-.
  unfold Mongoose.countDocuments.
  rewrite length_take, length_drop, Hsort.
  assert (0 <= (page l - 1) * limit l) as Hskip by nia.
  revert Hskip. generalize ((page l - 1) * limit l). intros skip Hskip. lia.
Qed.

Lemma listing_page_size_witness :
  exists l,
    listProducts Sample.driver (Scenario.pageQuery "2" "5") Scenario.stock2 = inr l
    /\ Z.of_nat (length (items l))
       = Z.min (limit l) (Z.max 0 (total l - (page l - 1) * limit l)).
Proof.
  assert (forall (srt : list (string * Z)) (docs : list (string * Product.Doc)),
             Mongoose.sortDocs Sample.driver srt docs ≡ₚ docs) as Hsort by done.
  destruct (listProducts Sample.driver (Scenario.pageQuery "2" "5") Scenario.stock2)
    as [e|l] eqn:Hl; [vm_compute in Hl; discriminate Hl|].
  exists l. split; [reflexivity|].
  exact (listing_page_size Sample.driver (Scenario.pageQuery "2" "5")
           Scenario.stock2 l Hsort eq_refl eq_refl Hl).
Defined.

(** X11. The total of a listing counts the active documents that match
    the search, and nothing else decides it: it is the number of stored
    documents with [active = true] that match the text search when the
    search parameter is a non-empty string (an absent or empty search
    matches all), whatever page, limit and sort the request carries. *)
Theorem listing_total_counts_active_matches
    (M : Mongoose.Driver) (q : Query) (store : Products) (l : Listing) :
  listProducts M q store = inr l ->
  total l
  = Z.of_nat (length (List.filter
                        (fun kv =>
                           (Product.active (snd kv)
                            && match q_search q with
                               | Some (String c s) => Mongoose.textMatch M (String c s) (snd kv)
                               | _ => true
                               end)%bool)
                        (map_to_list store))).
Proof.
  intros Hl. destruct (listing_shape M q store l Hl) as (_ & _ & -> & _).
  unfold Mongoose.countDocuments, Mongoose.selected. do 2 f_equal.
  apply List.filter_ext. intros [k d]. unfold Mongoose.matches, buildFilter. simpl.
  destruct (Product.active d); simpl; [|done].
  by destruct (q_search q) as [[|c s]|].
Qed.

Lemma listing_total_counts_active_matches_witness :
  exists l,
    listProducts Sample.driver (Scenario.pageQuery "7" "3") Example.attic = inr l
    /\ total l = 0.
Proof.
  destruct (listProducts Sample.driver (Scenario.pageQuery "7" "3") Example.attic)
    as [e|l] eqn:Hl; [vm_compute in Hl; discriminate Hl|].
  exists l. split; [reflexivity|].
  rewrite (listing_total_counts_active_matches Sample.driver
             (Scenario.pageQuery "7" "3") Example.attic l Hl).
  vm_compute. reflexivity.
Defined.

(** ** The guard and the routes behind it *)

(** X12. The guard resolves an identity exactly for a header that is
    "Bearer " followed by a non-empty token the library verifies under the
    configured secret, and then the identity is the [sub] and [email] of
    the verified payload; every failure of the guard carries status 401;
    and the library is called at most once, on the text after the prefix
    and with the configured secret. *)
Theorem guard_outcomes
    (P : Jwt.Primitives) (env : Env) (now : Z) (authorization : option string) :
  (forall user,
     fst (auth P env now authorization) = inr user <->
     exists t payload,
       authorization = Some ("Bearer " ++ t) /\ t <> ""
       /\ Jwt.verify P t (JWT_SECRET env) now = inr payload
       /\ user = {| id := Jwt.sub payload; email := Jwt.email payload |})
  /\ (forall e, fst (auth P env now authorization) = inl e -> statusCode e = Some 401)
  /\ (length (snd (auth P env now authorization)) <= 1)%nat
  /\ (forall ev, In ev (snd (auth P env now authorization)) ->
        exists t, authorization = Some ("Bearer " ++ t)
                  /\ ev = JwtVerify t (JWT_SECRET env)).
Proof.
  split; [|split; [|split]].
  - intros user. unfold auth.
    destruct (JS.startsWith (default "" authorization) "Bearer ") eqn:Hpre.
    + apply startsWith_spec in Hpre as [t Ht].
      destruct authorization as [h|]; simpl in Ht; [|discriminate Ht]. subst h.
      change (JS.slice 7 (default "" (Some ("Bearer " ++ t)))) with t.
      destruct t as [|c t]; simpl.
      * split; [done|]. intros (t' & payload & [= Ht'] & Hne & _).
        apply append_cancel in Ht'. congruence.
      * destruct (Jwt.verify P (String c t) (JWT_SECRET env) now) as [e|payload] eqn:Hv;
          simpl.
        -- split; [done|]. intros (t' & payload & [= Ht'] & _ & Hv' & _).
           apply append_cancel in Ht'. subst t'. congruence.
        -- split.
           ++ intros [= <-]. by exists (String c t), payload.
           ++ intros (t' & payload' & [= Ht'] & _ & Hv' & ->).
              apply append_cancel in Ht'. subst t'. congruence.
    + split; [done|]. intros (t & payload & -> & _).
      exfalso. revert Hpre. change (true = false -> False). discriminate.
  - intros e. unfold auth.
    destruct (JS.startsWith _ _); [|by intros [= <-]].
    destruct (JS.truthy _); [|by intros [= <-]].
    destruct (Jwt.verify _ _ _ _); simpl; [by intros [= <-] | done].
  - unfold auth. destruct (JS.startsWith _ _); [|simpl; lia].
    destruct (JS.truthy _); [|simpl; lia].
    destruct (Jwt.verify _ _ _ _); simpl; lia.
  - intros ev Hev. destruct (auth_events P env now authorization ev Hev) as [t [Ht ->]].
    by exists t.
Qed.

(** On the update route the checks run in a fixed order: a request
    the guard rejects is answered with the guard's error whatever its id,
    body and the collection; a request the guard lets through with an
    invalid id or body is answered 422 with the list of violations
    whatever the collection holds; and in both cases nothing is stored. *)
Lemma update_route_checks_in_order
    (P : Jwt.Primitives) (env : Env) (now : Z) (V : Validator.Checks)
    (M : Mongoose.Driver) (authorization : option string) (_id : string)
    (body : Body) (store : Products) :
  (forall e, fst (auth P env now authorization) = inl e ->
     patchRoute P env now V M authorization _id body store = (inl e, store))
  /\ (forall user, fst (auth P env now authorization) = inr user ->
        patchErrors V _id body <> [] ->
        patchRoute P env now V M authorization _id body store
        = (throwViolations (patchErrors V _id body), store))
  /\ (forall user, fst (auth P env now authorization) = inr user ->
        patchRoute P env now V M authorization _id body store
        = patchProduct V M user _id body store).
Proof.
  unfold patchRoute, protected. split; [|split].
  - by intros e ->.
  - intros user -> Hbad. unfold patchProduct.
    by destruct (patchErrors V _id body).
  - by intros user ->.
Qed.

(** ** Failures *)

Lemma failureIn_throw {A} (m : string) (c : Z) (codes : list Z) :
  In c codes -> c <> 422 -> c <> 0 -> failureIn (throw (A:=A) m c) codes.
Proof.
  intros Hin H422 H0. unfold failureIn, throw, errorHandler. simpl.
  destruct (Z.eqb_spec c 0); [done|]. split; [done|].
  split; [done | by intros [errs ?]].
Qed.

Lemma failureIn_violations {A} (errs : list ValidationError) (codes : list Z) :
  In 422 codes -> failureIn (throwViolations (A:=A) errs) codes.
Proof.
  intros Hin. unfold failureIn, throwViolations, errorHandler. simpl.
  split; [done|]. split; [by exists errs | done].
Qed.

Lemma failureIn_fatal {A} (m : string) (codes : list Z) :
  In 500 codes -> failureIn (throwFatal (A:=A) m) codes.
Proof.
  intros Hin. unfold failureIn, throwFatal, errorHandler. simpl.
  split; [done|]. split; [done | by intros [errs ?]].
Qed.

Lemma failureIn_save (_id : string) (d : option Product.Doc) (store : Products)
    (codes : list Z) :
  In 500 codes -> failureIn (fst (Mongoose.save _id d store)) codes.
Proof.
  intros Hin. unfold Mongoose.save. destruct d as [d|]; [|by apply failureIn_fatal].
  destruct (Product.validates d); [done | by apply failureIn_fatal].
Qed.

Lemma failureIn_create (M : Mongoose.Driver) (vn vd vp vs vo : JSValue)
    (store : Products) (codes : list Z) :
  In 500 codes -> failureIn (fst (Mongoose.create M vn vd vp vs vo store)) codes.
Proof.
  intros Hin.
  assert (failureIn (throwFatal (A:=string * Product.Doc) "ValidationError") codes)
    as Hv by (by apply failureIn_fatal).
  assert (failureIn (throwFatal (A:=string * Product.Doc) "CastError") codes)
    as Hc by (by apply failureIn_fatal).
  unfold Mongoose.create.
  destruct (Mongoose.castString M vn); [|by destruct vn, vp, vo].
  destruct (Mongoose.castString M vd); [|by destruct vn, vp, vo].
  destruct (Mongoose.castNumber M vp); [|by destruct vn, vp, vo].
  destruct (Mongoose.castNumber M vs); [|by destruct vn, vp, vo].
  destruct (Mongoose.castObjectId M vo); [|by destruct vn, vp, vo].
  destruct (Product.validates _); by destruct vn, vp, vo.
Qed.

(** X13. Each route fails only with its own statuses, and only a
    validation failure carries the list form: listing fails with 422 or
    500; read-by-id with 422, 404 or 500; create with 422 or 500; update and
    delete with 422, 404, 403 or 500; login with 422, 401 or 500; register
    with 422, 409 or 500; the guard with 401. The rendered body is
    [{ errors: [...] }] exactly when the status is 422 and
    [{ error: message }] otherwise. *)
Theorem routes_fail_with_their_statuses
    (V : Validator.Checks) (M : Mongoose.Driver) (U : User.Model)
    (P : Jwt.Primitives) (env : Env) (now : Z)
    (user : Identity) (rid : string) (body : Body) (q : Query)
    (authorization : option string) (store : Products) (users : list User.Doc) :
  failureIn (listProducts M q store) [422; 500]
  /\ failureIn (getProductById V M rid store) [422; 404; 500]
  /\ failureIn (fst (createProduct V M user body store)) [422; 500]
  /\ failureIn (fst (patchProductById V M user rid body store)) [422; 404; 403; 500]
  /\ failureIn (fst (deleteProductById V M user rid store)) [422; 404; 403; 500]
  /\ failureIn (login V M U P env now body users) [422; 401; 500]
  /\ failureIn (fst (register V M U P env now body users)) [422; 409; 500]
  /\ failureIn (fst (auth P env now authorization)) [401].
Proof.
  repeat split.
  - unfold listProducts, Mongoose.find.
    destruct (_ ++ _)%list; [|apply failureIn_violations; simpl; tauto].
    destruct (Mongoose.sortRejected M _); [apply failureIn_fatal; simpl; tauto | done].
  - unfold getProductById, findByRequestId, Mongoose.findById.
    destruct (Validator.check _ _ _); [|apply failureIn_violations; simpl; tauto].
    destruct (Mongoose.castObjectId M _) as [o|]; [|apply failureIn_fatal; simpl; tauto].
    destruct (store !! o) as [p|]; cbn [fmap option_fmap option_map];
      [|apply failureIn_throw; simpl; tauto || lia].
    destruct (Product.active p); [done|]. apply failureIn_throw; simpl; tauto || lia.
  - unfold createProduct.
    destruct (_ ++ _)%list; [|apply failureIn_violations; simpl; tauto].
    apply failureIn_create; simpl; tauto.
  - unfold patchProductById, findByRequestId, Mongoose.findById.
    destruct (patchErrors V rid body); [|apply failureIn_violations; simpl; tauto].
    destruct (Mongoose.castObjectId M _) as [o|]; [|apply failureIn_fatal; simpl; tauto].
    destruct (store !! o) as [p|]; cbn [fmap option_fmap option_map];
      [|apply failureIn_throw; simpl; tauto || lia].
    destruct (Product.active p); [|apply failureIn_throw; simpl; tauto || lia].
    destruct (String.eqb _ _); [|apply failureIn_throw; simpl; tauto || lia].
    apply failureIn_save; simpl; tauto.
  - unfold deleteProductById, findByRequestId, Mongoose.findById.
    destruct (Validator.check _ _ _); [|apply failureIn_violations; simpl; tauto].
    destruct (Mongoose.castObjectId M _) as [o|]; [|apply failureIn_fatal; simpl; tauto].
    destruct (store !! o) as [p|]; cbn [fmap option_fmap option_map];
      [|apply failureIn_throw; simpl; tauto || lia].
    destruct (Product.active p); [|apply failureIn_throw; simpl; tauto || lia].
    destruct (String.eqb _ _); [|apply failureIn_throw; simpl; tauto || lia].
    simpl. unfold Mongoose.save.
    destruct (Product.validates _); [done | apply failureIn_fatal; simpl; tauto].
  - unfold login, User.findOne.
    destruct (_ ++ _)%list; [|apply failureIn_violations; simpl; tauto].
    destruct (Mongoose.castString M _); [|apply failureIn_fatal; simpl; tauto].
    destruct (List.find _ _) as [u|]; [|apply failureIn_throw; simpl; tauto || lia].
    destruct (User.comparePassword U u _) as [[]|];
      [done | apply failureIn_throw; simpl; tauto || lia
      | apply failureIn_fatal; simpl; tauto].
  - unfold register, User.findOne, User.create.
    destruct (_ ++ _)%list; [|apply failureIn_violations; simpl; tauto].
    destruct (Mongoose.castString M (field body "email"));
      [|apply failureIn_fatal; simpl; tauto].
    destruct (List.find _ _) as [u|]; [apply failureIn_throw; simpl; tauto || lia|].
    destruct (Mongoose.castString M (field body "name"));
      [|apply failureIn_fatal; simpl; tauto].
    destruct (User.hashPassword U _); [done | apply failureIn_fatal; simpl; tauto].
  - unfold auth. destruct (JS.startsWith _ _);
      [|apply failureIn_throw; simpl; tauto || lia].
    destruct (JS.truthy _); [|apply failureIn_throw; simpl; tauto || lia].
    destruct (Jwt.verify _ _ _ _); [apply failureIn_throw; simpl; tauto || lia | done].
Qed.

(** ** Sessions *)

(** A token the routes issue passes the guard until its expiry, as the
    user it was issued for. *)
Lemma issued_token_passes_guard
    (P : Jwt.Primitives) (env : Env) (issued later : Z) (uid mail : string) :
  Jwt.Sound P ->
  later < issued + JWT_EXPIRES_IN env ->
  fst (auth P env later (Some ("Bearer " ++ issueToken P env issued uid mail)))
  = inr {| id := uid; email := mail |}.
Proof.
  intros Hsound Hfresh.
  apply (auth_accepts P env later _
           {| Jwt.sub := uid; Jwt.email := mail; Jwt.iat := issued;
              Jwt.exp := issued + JWT_EXPIRES_IN env |}).
  - unfold issueToken, Jwt.sign. apply truthy_append.
  - by apply verify_sign.
Qed.

Section SessionFacts.
Context (V : Validator.Checks) (M : Mongoose.Driver) (U : User.Model)
        (P : Jwt.Primitives) (env : Env).

(** The shape of a login that succeeds. *)
Lemma login_success (now : Z) (body : Body) (users : list User.Doc) (s : Session) :
  login V M U P env now body users = inr s ->
  exists user e,
    Mongoose.castString M (field body "email") = Some e
    /\ List.find (fun u => String.eqb (User.email u) e) users = Some user
    /\ User.comparePassword U user (field body "password") = Some true
    /\ s = session P env now user.
Proof.
  unfold login, User.findOne. destruct (_ ++ _)%list; [|done].
  destruct (Mongoose.castString M (field body "email")) as [e|]; [|done].
  destruct (List.find _ users) as [user|] eqn:Hfind; [|done].
  destruct (User.comparePassword U user _) as [[]|] eqn:Hcmp; try done.
  intros [= <-]. by exists user, e.
Qed.

(** The shape of a registration: an error that leaves the users as they
    are, or one user appended whose email no stored user had. *)
Lemma register_outcome (now : Z) (body : Body) (users : list User.Doc) :
  (exists err, register V M U P env now body users = (inl err, users))
  \/ (exists n e h,
        Validator.isEmail V (field body "email") = true
        /\ Mongoose.castString M (field body "name") = Some n
        /\ Mongoose.castString M (field body "email") = Some e
        /\ User.hashPassword U (field body "password") = Some h
        /\ List.find (fun u => String.eqb (User.email u) e) users = None
        /\ let user := {| User._id := User.newUserId U users; User.name := n;
                          User.email := e; User.password := h |} in
           register V M U P env now body users
           = (inr (session P env now user), (users ++ [user])%list)).
Proof.
  unfold register, User.findOne, User.create.
  destruct (Validator.notEmpty V (field body "name")); simpl; [|left; by eexists].
  destruct (Validator.isEmail V (field body "email")); simpl; [|left; by eexists].
  destruct (Validator.isLengthMin6 V (field body "password")); simpl;
    [|left; by eexists].
  destruct (Mongoose.castString M (field body "email")) as [e|]; [|left; by eexists].
  destruct (List.find _ users) as [u|] eqn:Hfind; [left; by eexists|].
  destruct (Mongoose.castString M (field body "name")) as [n|]; [|left; by eexists].
  destruct (User.hashPassword U (field body "password")) as [h|]; [|left; by eexists].
  right. by exists n, e, h.
Qed.
End SessionFacts.

(** X14. A login that succeeds answers the stored user and a usable
    token: the session carries the id, name and email of a stored user
    whose email is the one sent and whose password check accepted, and
    its token, sent as "Bearer <token>" before it expires, passes the
    guard as that user's id and email. *)
Theorem login_session_passes_guard
    (V : Validator.Checks) (M : Mongoose.Driver) (U : User.Model)
    (P : Jwt.Primitives) (env : Env) (now later : Z)
    (body : Body) (users : list User.Doc) (s : Session) :
  Jwt.Sound P ->
  login V M U P env now body users = inr s ->
  later < now + JWT_EXPIRES_IN env ->
  (exists user,
     In user users
     /\ Mongoose.castString M (field body "email") = Some (User.email user)
     /\ User.comparePassword U user (field body "password") = Some true
     /\ user_id s = User._id user /\ user_name s = User.name user
     /\ user_email s = User.email user)
  /\ fst (auth P env later (Some ("Bearer " ++ token s)))
     = inr {| id := user_id s; email := user_email s |}.
Proof.
  intros Hsound Hlogin Hfresh.
  destruct (login_success V M U P env now body users s Hlogin)
    as (user & e & He & Hfind & Hcmp & ->).
  apply find_some in Hfind as [Hin Heq]. apply String.eqb_eq in Heq.
  split.
  - exists user. repeat split; try done. by rewrite He, Heq.
  - by apply issued_token_passes_guard.
Qed.

Lemma login_session_passes_guard_witness :
  exists s,
    login Sample.checks Sample.driver Sample.users Sample.primitives Sample.env 0
      Scenario.lucasLogin [Example.lucas] = inr s
    /\ fst (auth Sample.primitives Sample.env 3600 (Some ("Bearer " ++ token s)))
       = inr {| id := user_id s; email := user_email s |}.
Proof.
  destruct (login Sample.checks Sample.driver Sample.users Sample.primitives Sample.env 0
              Scenario.lucasLogin [Example.lucas]) as [e|s] eqn:Hlogin;
    [vm_compute in Hlogin; discriminate Hlogin|].
  exists s. split; [reflexivity|].
  assert (3600 < 0 + JWT_EXPIRES_IN Sample.env) as Hfresh by (vm_compute; reflexivity).
  exact (proj2 (login_session_passes_guard Sample.checks Sample.driver Sample.users
                  Sample.primitives Sample.env 0 3600 Scenario.lucasLogin
                  [Example.lucas] s sample_primitives_sound Hlogin Hfresh)).
Defined.

(** X15. Registration keeps emails unique: when no two stored users share
    an email, none do after any registration. A registration that fails
    stores nothing, one for an email a stored user has fails with
    Conflict (409) when the request passes the validators, and one that
    succeeds appends exactly one user, with the email sent. *)
Theorem register_keeps_emails_unique
    (V : Validator.Checks) (M : Mongoose.Driver) (U : User.Model)
    (P : Jwt.Primitives) (env : Env) (now : Z) (body : Body) (users : list User.Doc) :
  NoDup (User.email <$> users) ->
  NoDup (User.email <$> snd (register V M U P env now body users))
  /\ (forall err users', register V M U P env now body users = (inl err, users') ->
        users' = users)
  /\ (forall s users', register V M U P env now body users = (inr s, users') ->
        exists user, users' = (users ++ [user])%list
                     /\ Mongoose.castString M (field body "email") = Some (User.email user)
                     /\ user_id s = User._id user /\ user_email s = User.email user)
  /\ (forall u, In u users ->
        Mongoose.castString M (field body "email") = Some (User.email u) ->
        Validator.notEmpty V (field body "name") = true ->
        Validator.isEmail V (field body "email") = true ->
        Validator.isLengthMin6 V (field body "password") = true ->
        register V M U P env now body users = (throw "Email já cadastrado" 409, users)).
Proof.
  intros Hnodup.
  destruct (register_outcome V M U P env now body users)
    as [[err Herr]|(n & e & h & _ & Hn & He & Hh & Hfind & Hok)].
  - split; [by rewrite Herr|]. split; [intros ?? H; congruence|].
    split; [intros ?? H; congruence|].
    intros u Hin Hu Hv1 Hv2 Hv3. unfold register, User.findOne.
    rewrite Hv1, Hv2, Hv3, Hu. simpl.
    destruct (List.find _ users) as [u'|] eqn:Hf; [done|].
    apply (find_none _ _ Hf) in Hin. by rewrite String.eqb_refl in Hin.
  - cbv zeta in Hok. split; [|split; [|split]].
    + rewrite Hok. simpl. rewrite fmap_app. simpl.
      apply NoDup_app. split; [done|]. split; [|apply NoDup_singleton].
      intros x Hx Hx'. apply list_elem_of_singleton in Hx'. subst x.
      apply list_elem_of_fmap in Hx as (u & Hu & Hin).
      apply list_elem_of_In in Hin. apply (find_none _ _ Hfind) in Hin.
      simpl in Hu. rewrite <- Hu, String.eqb_refl in Hin. done.
    + intros ?? H. congruence.
    + intros s users' H. rewrite Hok in H. injection H as <- <-.
      eexists. split; [reflexivity|]. by rewrite He.
    + intros u Hin Hu _ _ _. rewrite He in Hu. injection Hu as ->.
      apply (find_none _ _ Hfind) in Hin. by rewrite String.eqb_refl in Hin.
Qed.

Lemma register_keeps_emails_unique_witness :
  NoDup (User.email <$>
           snd (register Sample.checks Sample.driver Sample.users Sample.primitives
                  Sample.env 0 Scenario.anaBody [Example.lucas])).
Proof.
  assert (NoDup (User.email <$> [Example.lucas])) as Hnodup
    by (simpl; apply NoDup_singleton).
  exact (proj1 (register_keeps_emails_unique Sample.checks Sample.driver Sample.users
                  Sample.primitives Sample.env 0 Scenario.anaBody [Example.lucas]
                  Hnodup)).
Defined.

Lemma find_app_new {A} (f : A -> bool) (l : list A) (x : A) :
  List.find f l = None -> f x = true -> List.find f (l ++ [x])%list = Some x.
Proof.
  intros Hnone Hx. induction l as [|y l IH]; simpl in *; [by rewrite Hx|].
  destruct (f y); [done|]. by apply IH.
Qed.

(** X16. Who registered can log in: after a registration that succeeded,
    a login with the same email and password (the password check
    accepting the password a stored hash was made from, and the password
    passing the login validator) succeeds as the registered user. *)
Theorem registered_user_can_log_in
    (V : Validator.Checks) (M : Mongoose.Driver) (U : User.Model)
    (P : Jwt.Primitives) (env : Env) (now later : Z)
    (body : Body) (users users' : list User.Doc) (s : Session) :
  (forall u v, User.hashPassword U v = Some (User.password u) ->
               User.comparePassword U u v = Some true) ->
  Validator.notEmpty V (field body "password") = true ->
  register V M U P env now body users = (inr s, users') ->
  exists s',
    login V M U P env later body users' = inr s'
    /\ user_id s' = user_id s /\ user_name s' = user_name s
    /\ user_email s' = user_email s.
Proof.
  intros Hhash Hpw Hreg.
  destruct (register_outcome V M U P env now body users)
    as [[err Herr]|(n & e & h & Hmail & Hn & He & Hh & Hfind & Hok)]; [congruence|].
  cbv zeta in Hok. rewrite Hok in Hreg. injection Hreg as <- <-.
  unfold login, User.findOne. rewrite Hmail, Hpw, He. simpl.
  rewrite (find_app_new _ _ _ Hfind) by apply String.eqb_refl.
  rewrite Hhash by done. by eexists.
Qed.

Lemma registered_user_can_log_in_witness :
  exists s',
    login Sample.checks Sample.driver Sample.users Sample.primitives Sample.env 60
      Scenario.anaBody
      (snd (register Sample.checks Sample.driver Sample.users Sample.primitives
              Sample.env 0 Scenario.anaBody [Example.lucas])) = inr s'
    /\ user_email s' = "ana@mail.com".
Proof.
  assert (forall u v, User.hashPassword Sample.users v = Some (User.password u) ->
                      User.comparePassword Sample.users u v = Some true) as Hhash.
  { intros u [| |b|q|pw]; try (intros H; discriminate H).
    intros [= Hpw].
    change (Some (String.eqb ("$2b$" ++ pw) (User.password u)) = Some true).
    by rewrite Hpw, String.eqb_refl. }
  assert (Validator.notEmpty Sample.checks (field Scenario.anaBody "password") = true)
    as Hpw by (vm_compute; reflexivity).
  destruct (register Sample.checks Sample.driver Sample.users Sample.primitives
              Sample.env 0 Scenario.anaBody [Example.lucas]) as [[err|s] users']
    eqn:Hreg; [vm_compute in Hreg; discriminate Hreg|].
  destruct (registered_user_can_log_in Sample.checks Sample.driver Sample.users
              Sample.primitives Sample.env 0 60 Scenario.anaBody [Example.lucas]
              users' s Hhash Hpw Hreg) as (s' & Hlogin & _ & _ & Hmail).
  exists s'. split; [exact Hlogin|]. rewrite Hmail.
  vm_compute in Hreg. by injection Hreg as <- _.
Defined.

(** X17. A registration opens the profile route: the token a successful
    registration answers, sent as "Bearer <token>" before it expires,
    passes the guard, and the profile route answers the id, name and
    email of the registered user, never the password (the new id being
    canonical for the driver and fresh among the stored users); the
    profile of an id no user has is [null], not an error. *)
Theorem registration_opens_profile
    (V : Validator.Checks) (M : Mongoose.Driver) (U : User.Model)
    (P : Jwt.Primitives) (env : Env) (now later : Z)
    (body : Body) (users users' : list User.Doc) (s : Session) :
  Jwt.Sound P ->
  later < now + JWT_EXPIRES_IN env ->
  Mongoose.castObjectId M (Str (User.newUserId U users)) = Some (User.newUserId U users) ->
  (forall u, In u users -> User._id u <> User.newUserId U users) ->
  register V M U P env now body users = (inr s, users') ->
  meRoute P env later M (Some ("Bearer " ++ token s)) users'
  = (inr (Some {| profile_id := user_id s; profile_name := user_name s;
                  profile_email := user_email s |}), users')
  /\ (forall stranger o,
        Mongoose.castObjectId M (Str (id stranger)) = Some o ->
        (forall u, In u users' -> User._id u <> o) ->
        me M stranger users' = inr None).
Proof.
  intros Hsound Hfresh Hcanon Hnew Hreg.
  destruct (register_outcome V M U P env now body users)
    as [[err Herr]|(n & e & h & _ & Hn & He & Hh & Hfind & Hok)]; [congruence|].
  cbv zeta in Hok. rewrite Hok in Hreg. injection Hreg as <- <-.
  split.
  - unfold meRoute, protected, session. simpl.
    rewrite (issued_token_passes_guard P env now later _ _ Hsound Hfresh).
    unfold me, findUserById. simpl. rewrite Hcanon.
    rewrite (find_app_new _ users _).
    + reflexivity.
    + destruct (List.find (fun u => String.eqb (User._id u) _) users) as [u|] eqn:Hu;
        [|done].
      apply find_some in Hu as [Hin Heq]. apply String.eqb_eq in Heq.
      by apply Hnew in Hin.
    + apply String.eqb_refl.
  - intros stranger o Ho Hnone. unfold me, findUserById. rewrite Ho.
    destruct (List.find (fun u => String.eqb (User._id u) o) _) as [u|] eqn:Hu;
      [|done].
    apply find_some in Hu as [Hin Heq]. apply String.eqb_eq in Heq.
    by apply Hnone in Hin.
Qed.

Lemma registration_opens_profile_witness :
  exists s users',
    register Sample.checks Sample.driver Sample.users Sample.primitives Sample.env 0
      Scenario.anaBody [] = (inr s, users')
    /\ meRoute Sample.primitives Sample.env 60 Sample.driver
         (Some ("Bearer " ++ token s)) users'
       = (inr (Some {| profile_id := user_id s; profile_name := user_name s;
                       profile_email := user_email s |}), users').
Proof.
  destruct (register Sample.checks Sample.driver Sample.users Sample.primitives
              Sample.env 0 Scenario.anaBody []) as [[err|s] users'] eqn:Hreg;
    [vm_compute in Hreg; discriminate Hreg|].
  exists s, users'. split; [reflexivity|].
  assert (60 < 0 + JWT_EXPIRES_IN Sample.env) as Hfresh by (vm_compute; reflexivity).
  assert (Mongoose.castObjectId Sample.driver (Str (User.newUserId Sample.users []))
          = Some (User.newUserId Sample.users [])) as Hcanon
    by (vm_compute; reflexivity).
  assert (forall u : User.Doc, In u [] -> User._id u <> User.newUserId Sample.users [])
    as Hnew by (intros u []).
  exact (proj1 (registration_opens_profile Sample.checks Sample.driver Sample.users
                  Sample.primitives Sample.env 0 60 Scenario.anaBody [] users' s
                  sample_primitives_sound Hfresh Hcanon Hnew Hreg)).
Defined.

(** ** Update, then read *)

(** X18. An accepted update is what read-by-id then answers. For a body
    whose keys are all among name, description, price, stock, active and
    owner, and a product stored under the id: after an update that
    succeeded with document [d], read-by-id of the same id answers [d] when
    [d] is still active, and fails with NotFound (404) when the update set
    [active] to false. *)
Theorem updated_product_is_read_back
    (V : Validator.Checks) (M : Mongoose.Driver) (user : Identity) (_id : string)
    (body : Body) (store store' : Products) (p d : Product.Doc) :
  (forall k, is_Some (body !! k) -> In k Product.paths) ->
  store !! _id = Some p ->
  patchProduct V M user _id body store = (inr d, store') ->
  (Product.active d = true -> getProduct V _id store' = inr d)
  /\ (Product.active d = false ->
      getProduct V _id store' = throw "Produto não encontrado" 404).
Proof.
  intros _ _ Hpatch.
  destruct (patch_outcome V M user _id body store)
    as [[e He]|(p' & d' & Hvalid & _ & _ & _ & _ & _ & Hok)]; [congruence|].
  rewrite Hok in Hpatch. injection Hpatch as <- <-.
  pose proof (patchErrors_id _ _ _ Hvalid) as Hid.
  unfold getProduct, Mongoose.findById.
  rewrite (proj2 (check_nil _ _ _) Hid), lookup_insert_eq.
  split; by intros ->.
Qed.

Lemma updated_product_is_read_back_witness :
  getProduct Sample.checks Example.keyboardId
    (<[Example.keyboardId := Product.setPrice 150 Example.keyboard]> Example.shelf)
  = inr (Product.setPrice 150 Example.keyboard).
Proof.
  assert (patchProduct Sample.checks Sample.driver Example.alice Example.keyboardId
            {[ "price" := Number 150 ]} Example.shelf
          = (inr (Product.setPrice 150 Example.keyboard),
             <[Example.keyboardId := Product.setPrice 150 Example.keyboard]>
               Example.shelf)) as Hpatch by (vm_compute; reflexivity).
  assert (forall k, is_Some (({[ "price" := Number 150 ]} : Body) !! k) ->
                    In k Product.paths) as Hkeys.
  { intros k [v Hk]. apply lookup_singleton_Some in Hk as [<- _].
    vm_compute. tauto. }
  assert (Example.shelf !! Example.keyboardId = Some Example.keyboard) as Hp
    by (vm_compute; reflexivity).
  exact (proj1 (updated_product_is_read_back Sample.checks Sample.driver Example.alice
                  Example.keyboardId {[ "price" := Number 150 ]} Example.shelf _
                  Example.keyboard _ Hkeys Hp Hpatch) eq_refl).
Defined.

(** ** The fields of the sort document *)






(** The sort specification the driver reads has the properties of the
    sort document: all of them, in the order of their creation when no key
    is an array index. *)
Lemma insertIndex_Permutation (i : Z) (kv : string * Z) (l : list (Z * (string * Z))) :
  JSObject.insertIndex i kv l ≡ₚ (i, kv) :: l.
Proof.
  induction l as [|[j kv'] l IH]; simpl; [done|].
  destruct (Z.leb i j); [done|]. rewrite IH. apply Permutation_swap.
Qed.

Lemma entries_Permutation (o : JSObject.t) : JSObject.entries o ≡ₚ o.
Proof.
  unfold JSObject.entries, JSObject.indexed.
  induction o as [|kv o IH]; [done|]. cbn [foldr List.filter].
  destruct (JSObject.arrayIndex (fst kv)) as [i|].
  - rewrite insertIndex_Permutation. simpl. by rewrite IH.
  - rewrite <- Permutation_middle. by rewrite IH.
Qed.

Lemma entries_in_order (o : JSObject.t) :
  Forall (fun kv => JSObject.arrayIndex (fst kv) = None) o -> JSObject.entries o = o.
Proof.
  intros H. unfold JSObject.entries.
  assert (JSObject.indexed o = []) as ->.
  { unfold JSObject.indexed. induction H as [|kv o Hkv _ IH]; [done|].
    simpl. by rewrite Hkv. }
  simpl. induction H as [|kv o Hkv _ IH]; [done|]. simpl. by rewrite Hkv, IH.
Qed.

Example sort_priority :
  JSObject.entries (buildSort (Some "price,-createdAt,name"))
  = [("price", 1); ("createdAt", -1); ("name", 1)]
  /\ JSObject.entries (buildSort (Some "price,2,-10,1"))
     = [("1", 1); ("2", 1); ("10", -1); ("price", 1)].
Proof. split; vm_compute; reflexivity. Qed.



(** ** Which listings fail their validation *)

(** The conversion rounds to a double: the chains take a page whose
    double is below 10^21 and refuse one that is rounded to 10^21, whose
    string is in exponent notation; and they take a page after a no-break
    space. *)
Example page_at_the_exponent_notation :
  Validator.toInt "999999999999999934463" = Validator.Int 999999999999999868928
  /\ intParam "page" (Some "999999999999999934463") 1 None = []
  /\ Validator.toInt "999999999999999999999" = Validator.Int (10 ^ 21)
  /\ intParam "page" (Some "999999999999999999999") 1 None <> []
  /\ Validator.toInt (String (ascii_of_nat 194) (String (ascii_of_nat 160) "3"))
     = Validator.Int 3.
Proof. repeat split; vm_compute; congruence. Qed.

